(** * clip-connect-proxy: session registry and clipboard relay

    A shallow embedding of [src/index.js], which holds two variants of one
    Express service over a Supabase store:

    - the key-issuing variant (first half of the file): [generateKey],
      [generateUniqueSessionCode] and the routes [/create-session],
      [/join-session], [/sync], [/latest/:sessionId], [/end-session];
    - the device-roster variant (second half): [/create-session],
      [/join-session], [/sync], [/latest].

    A route handler is a program over four kinds of events: a draw from
    [nanoid], a draw from [crypto.randomBytes], an awaited call of the
    Supabase client, and a line written by [console.error].  Programs are
    interpreted over an in-memory model of the two tables, with oracles for
    the random draws, for the identifiers and timestamps the store assigns,
    and for the faults of the collaborator.  Requests are handled one at a
    time: the interleaving of concurrent requests is not modelled. *)

From Stdlib Require Import List String Ascii ZArith NArith Bool Arith Lia.
Import ListNotations.

Set Implicit Arguments.

(** ** JavaScript values *)

(** A JavaScript string is a sequence of UTF-16 code units; [.length] counts
    them. *)
Definition code_unit := N.
Definition jsstring := list code_unit.

(** The string of an ASCII literal of the source. *)
Definition js (s : string) : jsstring :=
  map N_of_ascii (list_ascii_of_string s).

(** What a field of a parsed JSON body, a path or a query parameter can hold.
    A missing field reads as [VUndefined].  Arrays and objects are kept as
    their JSON text: no handler looks inside one.  Numbers are the integers:
    the handlers only ask a number for its type and whether it is zero. *)
Inductive value : Type :=
| VUndefined
| VNull
| VBool (b : bool)
| VNum (z : Z)
| VStr (s : jsstring)
| VObject (json : jsstring).

Inductive jstype : Type :=
| TUndefined | TObject | TBoolean | TNumber | TString.

Definition typeof (v : value) : jstype :=
  match v with
  | VUndefined => TUndefined
  | VNull => TObject
  | VBool _ => TBoolean
  | VNum _ => TNumber
  | VStr _ => TString
  | VObject _ => TObject
  end.

Definition is_string (v : value) : bool :=
  match typeof v with TString => true | _ => false end.

(** ToBoolean: [undefined], [null], [false], [0] and the empty string are
    falsy, everything else is truthy. *)
Definition truthy (v : value) : bool :=
  match v with
  | VUndefined => false
  | VNull => false
  | VBool b => b
  | VNum z => negb (Z.eqb z 0)
  | VStr s => match s with [] => false | _ :: _ => true end
  | VObject _ => true
  end.

(** The [.length] of a string value (read only behind a [typeof] test). *)
Definition js_length (v : value) : nat :=
  match v with
  | VStr s => List.length s
  | _ => 0
  end.

Fixpoint str_eqb (a b : jsstring) : bool :=
  match a, b with
  | [], [] => true
  | x :: a', y :: b' => N.eqb x y && str_eqb a' b'
  | _, _ => false
  end.

Definition value_eqb (a b : value) : bool :=
  match a, b with
  | VUndefined, VUndefined => true
  | VNull, VNull => true
  | VBool x, VBool y => Bool.eqb x y
  | VNum x, VNum y => Z.eqb x y
  | VStr x, VStr y => str_eqb x y
  | VObject x, VObject y => str_eqb x y
  | _, _ => false
  end.

(** [a || b] on values. *)
Definition js_or (a b : value) : value :=
  if truthy a then a else b.

Definition is_upper (c : code_unit) : bool := (N.leb 65 c && N.leb c 90)%bool.
Definition is_lower (c : code_unit) : bool := (N.leb 97 c && N.leb c 122)%bool.
Definition is_digit (c : code_unit) : bool := (N.leb 48 c && N.leb c 57)%bool.

(** [String.prototype.toUpperCase] on the code units [a]..[z]; the handlers
    apply it to the output of [nanoid] only, which is ASCII. *)
Definition upper_unit (c : code_unit) : code_unit :=
  if is_lower c then (c - 32)%N else c.

Definition toUpperCase (s : jsstring) : jsstring := map upper_unit s.

(** The default alphabet of the [nanoid] package the source imports (its
    [urlAlphabet] constant): the 64 URL-safe symbols [A-Za-z0-9_-]. *)
Definition urlAlphabet : jsstring :=
  js "useandom-26T198340PX75pxJACKVERYMINDBUSHWOLF_GQZbfghjklqvwyzrict".

Definition in_alphabet (c : code_unit) : bool :=
  existsb (N.eqb c) urlAlphabet.

(** What [nanoid(size)] can return. *)
Definition nanoid_output (size : nat) (s : jsstring) : Prop :=
  List.length s = size /\ forallb in_alphabet s = true.

(** An uppercase alphanumeric symbol: [A-Z] or [0-9]. *)
Definition upper_alnum (c : code_unit) : bool := (is_upper c || is_digit c)%bool.

(** A symbol of an upper-cased [nanoid]: [A-Z], [0-9], [_] or [-]. *)
Definition code_symbol (c : code_unit) : bool :=
  (is_upper c || is_digit c || N.eqb c 95 || N.eqb c 45)%bool.

(** ** The tables *)

Record Session : Type := {
  id : jsstring;
  code : jsstring;
  aes_key : option jsstring;
  device_ids : option (list jsstring)
}.

Record ClipboardItem : Type := {
  session_id : value;
  content : value;
  from_device : value;
  created_at : N
}.

Record DB : Type := {
  sessions : list Session;
  clipboard_items : list ClipboardItem
}.

(** ** The Supabase client *)

(** The [error] object of a response; [err_code] is its [.code]. *)
Record StorageError : Type := { err_code : jsstring }.

(** The [{ data, error }] pair every awaited call resolves to. *)
Record Response (T : Type) : Type := {
  data : option T;
  error : option StorageError
}.

(** The calls the handlers make, one constructor per query shape. *)
Inductive Query : Type :=
| SelectSessionIdByCode (c : value)
    (* from('sessions').select('id').eq('code', c).single() *)
| SelectSessionByCode (c : value)
    (* from('sessions').select().eq('code', c).single() *)
| InsertSession (c : jsstring) (key : option jsstring)
    (* from('sessions').insert([{ code, aes_key? }]).select().single() *)
| UpdateDeviceIds (i : jsstring) (ids : list jsstring)
    (* from('sessions').update({ device_ids }).eq('id', i) *)
| DeleteSessionById (i : value)
    (* from('sessions').delete().eq('id', i) *)
| InsertItem (sid clip : value) (fromDevice : option value)
    (* from('clipboard_items').insert([{ session_id, content, from_device? }]) *)
| LatestItem (sid : value)
    (* from('clipboard_items').select().eq('session_id', sid)
         .order('created_at', { ascending: false }).limit(1).single() *)
| DeleteItemsBySession (sid : value).
    (* from('clipboard_items').delete().eq('session_id', sid) *)

Definition result_type (q : Query) : Type :=
  match q with
  | SelectSessionIdByCode _ => jsstring
  | SelectSessionByCode _ => Session
  | InsertSession _ _ => Session
  | UpdateDeviceIds _ _ => unit
  | DeleteSessionById _ => unit
  | InsertItem _ _ _ => unit
  | LatestItem _ => ClipboardItem
  | DeleteItemsBySession _ => unit
  end.

(** ** Handler programs *)

(** A value thrown by a handler. *)
Inductive Thrown : Type :=
| JsError (message : string)          (* new Error(message) *)
| StorageFailure (e : StorageError)   (* throw error *)
| TypeError.                          (* a property read on null *)

(** What a request ends in: a reply with a status and a JSON body, or a
    rejection that escapes the async handler, which Express leaves
    unanswered. *)
Inductive Outcome : Type :=
| Reply (status : nat) (body : list (string * value))
| Unanswered (e : Thrown).

Inductive Prog (R : Type) : Type :=
| Ret (r : R)
| Nanoid (size : nat) (k : jsstring -> Prog R)
| RandomBytes (n : nat) (k : jsstring -> Prog R)
| Supabase (q : Query) (k : Response (result_type q) -> Prog R)
| ConsoleError (msg : string) (k : Prog R).

Arguments Ret {R} r.
Arguments Nanoid {R} size k.
Arguments RandomBytes {R} n k.
Arguments Supabase {R} q k.
Arguments ConsoleError {R} msg k.

Fixpoint bind {A B : Type} (m : Prog A) (f : A -> Prog B) : Prog B :=
  match m with
  | Ret a => f a
  | Nanoid n k => Nanoid n (fun s => bind (k s) f)
  | RandomBytes n k => RandomBytes n (fun s => bind (k s) f)
  | Supabase q k => Supabase q (fun r => bind (k r) f)
  | ConsoleError msg k => ConsoleError msg (bind k f)
  end.

Declare Scope prog_scope.
Delimit Scope prog_scope with prog.
Notation "x <- m ;; k" := (bind m (fun x => k))
  (at level 61, m at next level, right associativity) : prog_scope.
Notation "m ;;; k" := (bind m (fun _ => k))
  (at level 61, right associativity) : prog_scope.
Open Scope prog_scope.

Definition nanoid (size : nat) : Prog jsstring := Nanoid size Ret.
Definition randomBytes64 (n : nat) : Prog jsstring := RandomBytes n Ret.
Definition supabase (q : Query) : Prog (Response (result_type q)) := Supabase q Ret.
Definition console_error (msg : string) : Prog unit := ConsoleError msg (Ret tt).

(** [res.json(body)] and [res.status(s).json(body)]. *)
Definition json (body : list (string * value)) : Outcome := Reply 200 body.
Definition status_json (s : nat) (body : list (string * value)) : Outcome := Reply s body.

Definition opt_str (o : option jsstring) : value :=
  match o with Some s => VStr s | None => VNull end.

Definition is_some {T : Type} (o : option T) : bool :=
  match o with Some _ => true | None => false end.

(** ** The key-issuing variant *)

Module KeyIssuing.

(** [crypto.randomBytes(32).toString('base64')]. *)
Definition generateKey : Prog jsstring := randomBytes64 32.

(** The [while (!isUnique && tries < 10)] loop of [generateUniqueSessionCode],
    on its three locals.  [fuel] bounds the iterations;
    [generateUniqueSessionCode_while_exit] shows that the loop leaves with its
    condition false, never for want of fuel. *)
Fixpoint generateUniqueSessionCode_while
    (fuel : nat) (code : jsstring) (isUnique : bool) (tries : nat)
  : Prog (jsstring * bool * nat) :=
  match fuel with
  | O => Ret (code, isUnique, tries)
  | S fuel' =>
    if (negb isUnique && (tries <? 10))%bool then
      s <- nanoid 6;;
      let code := toUpperCase s in
      r <- supabase (SelectSessionIdByCode (VStr code));;
      let isUnique :=
        if (negb (is_some (data r)) && negb (is_some (error r)))%bool
        then true else isUnique in
      generateUniqueSessionCode_while fuel' code isUnique (S tries)
    else Ret (code, isUnique, tries)
  end.

(** [inl] is a throw, [inr] the returned code. *)
Definition generateUniqueSessionCode : Prog (Thrown + jsstring) :=
  st <- generateUniqueSessionCode_while 10 (js "") false 0;;
  let '(code, isUnique, _) := st in
  if negb isUnique then Ret (inl (JsError "Failed to generate unique code"))
  else Ret (inr code).

(** The [try] block of [POST /create-session]. *)
Definition create_session_try : Prog (Thrown + Outcome) :=
  c <- generateUniqueSessionCode;;
  match c with
  | inl e => Ret (inl e)
  | inr code =>
    key <- generateKey;;
    r <- supabase (InsertSession code (Some key));;
    match error r with
    | Some e => Ret (inl (StorageFailure e))
    | None =>
      match data r with
      | None => Ret (inl TypeError)
      | Some d =>
        Ret (inr (json [("sessionId", VStr (id d)); ("code", VStr code);
                        ("aesKey", VStr key)]%string))
      end
    end
  end.

(** [POST /create-session]. *)
Definition create_session : Prog Outcome :=
  t <- create_session_try;;
  match t with
  | inr o => Ret o
  | inl _ =>
    console_error "Session creation failed:";;;
    Ret (status_json 500 [("error", VStr (js "Failed to create session"))]%string)
  end.

(** [POST /join-session], on the [code] field of the body. *)
Definition join_session (code : value) : Prog Outcome :=
  if (negb (is_string code) || negb (js_length code =? 6))%bool then
    Ret (status_json 400 [("error", VStr (js "Invalid code"))]%string)
  else
    r <- supabase (SelectSessionByCode code);;
    match error r, data r with
    | None, Some d =>
      Ret (json [("sessionId", VStr (id d)); ("aesKey", opt_str (aes_key d))]%string)
    | _, _ =>
      Ret (status_json 404 [("error", VStr (js "Session not found"))]%string)
    end.

(** [POST /sync], on the [sessionId] and [clip] fields of the body. *)
Definition sync (sessionId clip : value) : Prog Outcome :=
  if (negb (truthy sessionId) || negb (truthy clip))%bool then
    Ret (status_json 400 [("error", VStr (js "Missing sessionId or clip"))]%string)
  else
    r <- supabase (InsertItem sessionId clip None);;
    match error r with
    | Some _ =>
      console_error "Sync error:";;;
      Ret (status_json 500 [("error", VStr (js "Failed to sync"))]%string)
    | None => Ret (json [("success", VBool true)]%string)
    end.

(** [GET /latest/:sessionId]; a path parameter is a string. *)
Definition latest (sessionId : jsstring) : Prog Outcome :=
  r <- supabase (LatestItem (VStr sessionId));;
  match error r, data r with
  | None, Some d => Ret (json [("clip", content d)]%string)
  | _, _ =>
    Ret (status_json 404 [("error", VStr (js "No clipboard found"))]%string)
  end.

(** [POST /end-session], on the [sessionId] field of the body. *)
Definition end_session (sessionId : value) : Prog Outcome :=
  if negb (truthy sessionId) then
    Ret (status_json 400 [("error", VStr (js "Missing sessionId"))]%string)
  else
    supabase (DeleteItemsBySession sessionId);;;
    r <- supabase (DeleteSessionById sessionId);;
    match error r with
    | Some _ =>
      console_error "End session error:";;;
      Ret (status_json 500 [("error", VStr (js "Failed to end session"))]%string)
    | None => Ret (json [("success", VBool true)]%string)
    end.

End KeyIssuing.

(** ** The device-roster variant *)

Module DeviceRoster.

(** How an iteration of the [while (tries < 5)] loop of [POST /create-session]
    leaves: by a [return] from inside the loop, or by falling out of it. *)
Inductive LoopExit : Type :=
| Returned (o : Outcome)
| FellThrough (tries : nat).

(** [current.includes(deviceId)] on an array of strings. *)
Definition includes (current : list jsstring) (deviceId : jsstring) : bool :=
  existsb (str_eqb deviceId) current.

(** The loop of [POST /create-session]; [create_session_while_exit] shows
    that it falls through with its condition false only. *)
Fixpoint create_session_while (fuel : nat) (tries : nat) : Prog LoopExit :=
  match fuel with
  | O => Ret (FellThrough tries)
  | S fuel' =>
    if tries <? 5 then
      s <- nanoid 6;;
      let code := toUpperCase s in
      r <- supabase (InsertSession code None);;
      match error r with
      | None =>
        match data r with
        | Some d =>
          Ret (Returned (json [("sessionId", VStr (id d)); ("code", VStr code)]%string))
        | None => Ret (Returned (Unanswered TypeError))
        end
      | Some e =>
        if negb (str_eqb (err_code e) (js "23505")) then
          Ret (Returned
                 (status_json 500 [("error", VStr (js "Failed to create session"))]%string))
        else create_session_while fuel' (S tries)
      end
    else Ret (FellThrough tries)
  end.

(** [POST /create-session]. *)
Definition create_session : Prog Outcome :=
  x <- create_session_while 5 0;;
  match x with
  | Returned o => Ret o
  | FellThrough _ =>
    Ret (status_json 500 [("error", VStr (js "Code generation failed"))]%string)
  end.

(** [POST /join-session], on the [code] and [deviceId] fields of the body. *)
Definition join_session (code deviceId : value) : Prog Outcome :=
  if (negb (is_string code) || negb (js_length code =? 6))%bool then
    Ret (status_json 400 [("error", VStr (js "Invalid code"))]%string)
  else
    r <- supabase (SelectSessionByCode code);;
    match error r, data r with
    | None, Some d =>
      (if (truthy deviceId && is_string deviceId)%bool then
         match deviceId with
         | VStr dev =>
           let current :=
             match device_ids d with Some l => l | None => [] end in
           if negb (includes current dev) then
             supabase (UpdateDeviceIds (id d) (current ++ [dev]));;; Ret tt
           else Ret tt
         | _ => Ret tt
         end
       else Ret tt);;;
      Ret (json [("sessionId", VStr (id d))]%string)
    | _, _ =>
      Ret (status_json 404 [("error", VStr (js "Session not found"))]%string)
    end.

(** [POST /sync], on the [sessionId], [clip] and [fromDevice] fields. *)
Definition sync (sessionId clip fromDevice : value) : Prog Outcome :=
  if (negb (is_string sessionId) || negb (is_string clip))%bool then
    Ret (status_json 400 [("error", VStr (js "Invalid sessionId or clip"))]%string)
  else
    r <- supabase (InsertItem sessionId clip (Some (js_or fromDevice VNull)));;
    match error r with
    | Some _ => Ret (status_json 500 [("error", VStr (js "Failed to sync"))]%string)
    | None => Ret (json [("success", VBool true)]%string)
    end.

(** [GET /latest], on the [sessionId] query parameter.  The store renders
    [created_at] as a number here. *)
Definition latest (sessionId : value) : Prog Outcome :=
  if negb (is_string sessionId) then
    Ret (status_json 400 [("error", VStr (js "Missing sessionId"))]%string)
  else
    r <- supabase (LatestItem sessionId);;
    match error r, data r with
    | None, Some d =>
      Ret (json [("content", content d); ("fromDevice", from_device d);
                 ("timestamp", VNum (Z.of_N (created_at d)))]%string)
    | _, _ => Ret (status_json 404 [("error", VStr (js "No data found"))]%string)
    end.

End DeviceRoster.

(** ** The store *)

(** What the source leaves to the deployment: whether [sessions.code] carries
    a uniqueness constraint (the device-roster variant handles its violation,
    code 23505), and the error [.single()] reports when no row matches
    (supabase-js reports one; a store whose lookup answers "no record"
    without an error has [None]). *)
Record Config : Type := {
  unique_code : bool;
  no_rows : option StorageError
}.

(** The oracles of a run: what the successive calls of [nanoid] return for
    the size they ask for ([nanoid_out size n] answers the [n]-th call,
    asking for [size] symbols), the successive outputs of [generateKey],
    and, for the [n]-th call of the Supabase client, the identifier the store
    would assign to a new session, the fault that makes the call fail
    without effect (if any), and the time of the call. *)
Record Env : Type := {
  nanoid_out : nat -> nat -> jsstring;
  key_out : nat -> jsstring;
  uuid_out : nat -> jsstring;
  fault : nat -> option StorageError;
  clock : nat -> N
}.

(** The state a run threads: the tables, the calls made so far (oldest
    first), the numbers of draws, and the lines written by [console.error]. *)
Record State : Type := {
  db : DB;
  trace : list Query;
  nanoids : nat;
  keys : nat;
  console : list string
}.

Definition unique_violation : StorageError := {| err_code := js "23505" |}.
Definition not_one_row : StorageError := {| err_code := js "PGRST116" |}.

Definition code_is (c : value) (s : Session) : bool := value_eqb (VStr (code s)) c.
Definition id_is (i : value) (s : Session) : bool := value_eqb (VStr (id s)) i.
Definition of_session (sid : value) (it : ClipboardItem) : bool :=
  value_eqb (session_id it) sid.

(** [.order('created_at', { ascending: false })]: insertion into a list
    sorted by decreasing [created_at]. *)
Fixpoint insert_desc (x : ClipboardItem) (l : list ClipboardItem) : list ClipboardItem :=
  match l with
  | [] => [x]
  | y :: t =>
    if N.ltb (created_at y) (created_at x) then x :: y :: t
    else y :: insert_desc x t
  end.

Definition order_desc (l : list ClipboardItem) : list ClipboardItem :=
  fold_right insert_desc [] l.

(** [.limit(n)]. *)
Definition limit {T : Type} (n : nat) (l : list T) : list T := firstn n l.

Definition set_device_ids (ids : list jsstring) (s : Session) : Session :=
  {| id := id s; code := code s; aes_key := aes_key s; device_ids := Some ids |}.

Definition no_data (T : Type) : Response T := {| data := None; error := None |}.
Definition failed (T : Type) (e : StorageError) : Response T :=
  {| data := None; error := Some e |}.

Section Store.

Variable cfg : Config.

(** [.single()]: the one matching row, or an error. *)
Definition single {T : Type} (rows : list T) : Response T :=
  match rows with
  | [] => {| data := None; error := no_rows cfg |}
  | [r] => {| data := Some r; error := None |}
  | _ :: _ :: _ => failed T not_one_row
  end.

(** Modelled from the spec: the storage collaborator behind the Supabase
    client, which is not part of the source: a keyed record store with
    lookup, insert, update, delete and latest-by-timestamp, over the two
    tables.  [apply_query] is a call that reaches the store, at time [now];
    [uuid] is the identifier a new session gets.  Inserts append, so a table
    lists its rows oldest first. *)
Definition apply_query (q : Query) (now : N) (uuid : jsstring) (d : DB)
  : Response (result_type q) * DB :=
  match q as q0 return Response (result_type q0) * DB with
  | SelectSessionIdByCode c =>
    (single (map id (filter (code_is c) (sessions d))), d)
  | SelectSessionByCode c =>
    (single (filter (code_is c) (sessions d)), d)
  | InsertSession c key =>
    if (unique_code cfg && existsb (code_is (VStr c)) (sessions d))%bool then
      (failed Session unique_violation, d)
    else
      let row := {| id := uuid; code := c; aes_key := key; device_ids := None |} in
      ({| data := Some row; error := None |},
       {| sessions := sessions d ++ [row]; clipboard_items := clipboard_items d |})
  | UpdateDeviceIds i ids =>
    (no_data unit,
     {| sessions :=
          map (fun s => if id_is (VStr i) s then set_device_ids ids s else s)
              (sessions d);
        clipboard_items := clipboard_items d |})
  | DeleteSessionById i =>
    (no_data unit,
     {| sessions := filter (fun s => negb (id_is i s)) (sessions d);
        clipboard_items := clipboard_items d |})
  | InsertItem sid clip fromDevice =>
    let row := {| session_id := sid; content := clip;
                  from_device := match fromDevice with Some v => v | None => VNull end;
                  created_at := now |} in
    (no_data unit,
     {| sessions := sessions d; clipboard_items := clipboard_items d ++ [row] |})
  | LatestItem sid =>
    (single (limit 1 (order_desc (filter (of_session sid) (clipboard_items d)))), d)
  | DeleteItemsBySession sid =>
    (no_data unit,
     {| sessions := sessions d;
        clipboard_items := filter (fun it => negb (of_session sid it)) (clipboard_items d) |})
  end.

Variable env : Env.

(** The [n]-th call of the client: a fault answers with its error and leaves
    the tables alone. *)
Definition exec (q : Query) (n : nat) (d : DB) : Response (result_type q) * DB :=
  match fault env n with
  | Some e => (failed (result_type q) e, d)
  | None => apply_query q (clock env n) (uuid_out env n) d
  end.

Fixpoint run {R : Type} (p : Prog R) (st : State) : R * State :=
  match p with
  | Ret r => (r, st)
  | Nanoid size k =>
    run (k (nanoid_out env size (nanoids st)))
        {| db := db st; trace := trace st; nanoids := S (nanoids st);
           keys := keys st; console := console st |}
  | RandomBytes _ k =>
    run (k (key_out env (keys st)))
        {| db := db st; trace := trace st; nanoids := nanoids st;
           keys := S (keys st); console := console st |}
  | Supabase q k =>
    let '(r, d) := exec q (List.length (trace st)) (db st) in
    run (k r)
        {| db := d; trace := trace st ++ [q]; nanoids := nanoids st;
           keys := keys st; console := console st |}
  | ConsoleError msg k =>
    run k
        {| db := db st; trace := trace st; nanoids := nanoids st;
           keys := keys st; console := console st ++ [msg] |}
  end.

End Store.

(** ** The two variants side by side *)

Inductive Variant : Type := KeyIssuingVariant | DeviceRosterVariant.

Definition create_session (v : Variant) : Prog Outcome :=
  match v with
  | KeyIssuingVariant => KeyIssuing.create_session
  | DeviceRosterVariant => DeviceRoster.create_session
  end.

(** [JoinSession]; the key-issuing variant does not read [deviceId]. *)
Definition join_session (v : Variant) (c deviceId : value) : Prog Outcome :=
  match v with
  | KeyIssuingVariant => KeyIssuing.join_session c
  | DeviceRosterVariant => DeviceRoster.join_session c deviceId
  end.

(** [Sync]; the key-issuing variant does not read [fromDevice]. *)
Definition sync (v : Variant) (sessionId clip fromDevice : value) : Prog Outcome :=
  match v with
  | KeyIssuingVariant => KeyIssuing.sync sessionId clip
  | DeviceRosterVariant => DeviceRoster.sync sessionId clip fromDevice
  end.

(** [Latest] of a session identifier. *)
Definition latest (v : Variant) (sessionId : jsstring) : Prog Outcome :=
  match v with
  | KeyIssuingVariant => KeyIssuing.latest sessionId
  | DeviceRosterVariant => DeviceRoster.latest (VStr sessionId)
  end.

(** The bound on the attempts of [CreateSession]. *)
Definition attempts (v : Variant) : nat :=
  match v with KeyIssuingVariant => 10 | DeviceRosterVariant => 5 end.

(** The call an attempt makes for a candidate code. *)
Definition attempt_query (v : Variant) (c : jsstring) : Query :=
  match v with
  | KeyIssuingVariant => SelectSessionIdByCode (VStr c)
  | DeviceRosterVariant => InsertSession c None
  end.

(** The reply of [CreateSession] once the attempts are used up. *)
Definition exhausted_reply (v : Variant) : Outcome :=
  match v with
  | KeyIssuingVariant =>
    Reply 500 [("error", VStr (js "Failed to create session"))]%string
  | DeviceRosterVariant =>
    Reply 500 [("error", VStr (js "Code generation failed"))]%string
  end.

(** The reply [Latest] gives for a row. *)
Definition latest_reply (v : Variant) (d : ClipboardItem) : Outcome :=
  match v with
  | KeyIssuingVariant => Reply 200 [("clip", content d)]%string
  | DeviceRosterVariant =>
    Reply 200 [("content", content d); ("fromDevice", from_device d);
               ("timestamp", VNum (Z.of_N (created_at d)))]%string
  end.

Definition not_found_reply (v : Variant) : Outcome :=
  match v with
  | KeyIssuingVariant => Reply 404 [("error", VStr (js "No clipboard found"))]%string
  | DeviceRosterVariant => Reply 404 [("error", VStr (js "No data found"))]%string
  end.

(** [nanoid] honours the size it is asked for and draws from its
    alphabet. *)
Definition nanoid_contract (env : Env) : Prop :=
  forall size n, nanoid_output size (nanoid_out env size n).

(** The [n]-th candidate code drawn from state [st] on, by [nanoid(6)]. *)
Definition candidate (env : Env) (st : State) (n : nat) : jsstring :=
  toUpperCase (nanoid_out env 6 (nanoids st + n)).

(** A field of a reply body. *)
Fixpoint field (name : string) (body : list (string * value)) : option value :=
  match body with
  | [] => None
  | (k, v) :: rest => if String.eqb k name then Some v else field name rest
  end.

Definition status_of (o : Outcome) : option nat :=
  match o with Reply s _ => Some s | Unanswered _ => None end.

Definition nonempty_string (v : value) : Prop :=
  exists s, v = VStr s /\ s <> [].

(** A string of exactly 6 code units. *)
Definition six_chars (v : value) : Prop :=
  exists s, v = VStr s /\ List.length s = 6.

(** No duplicate in the device roster of a session. *)
Definition roster_nodup (s : Session) : Prop :=
  match device_ids s with
  | Some l => NoDup l
  | None => True
  end.

(** The guard of [Sync]: the requests each variant answers 400 to. *)
Definition sync_rejects (v : Variant) (sessionId clip : value) : bool :=
  match v with
  | KeyIssuingVariant => (negb (truthy sessionId) || negb (truthy clip))%bool
  | DeviceRosterVariant => (negb (is_string sessionId) || negb (is_string clip))%bool
  end.

(** The insert [Sync] makes. *)
Definition sync_query (v : Variant) (sessionId clip fromDevice : value) : Query :=
  match v with
  | KeyIssuingVariant => InsertItem sessionId clip None
  | DeviceRosterVariant => InsertItem sessionId clip (Some (js_or fromDevice VNull))
  end.

(** The content field of a reply of [Latest]. *)
Definition reply_content (v : Variant) (o : Outcome) : option value :=
  match o with
  | Reply _ body =>
    match v with
    | KeyIssuingVariant => field "clip" body
    | DeviceRosterVariant => field "content" body
    end
  | Unanswered _ => None
  end.

(** ** Concrete runs *)

Module Scenario.

Definition empty_db : DB := {| sessions := []; clipboard_items := [] |}.

Definition start (d : DB) : State :=
  {| db := d; trace := []; nanoids := 0; keys := 0; console := [] |}.

(** A store with the uniqueness constraint whose lookups answer "no record"
    without an error, and one that reports it the supabase-js way. *)
Definition lenient : Config := {| unique_code := true; no_rows := None |}.
Definition strict : Config := {| unique_code := true; no_rows := Some not_one_row |}.

(** A draw of [size] symbols: those of [s], cut to [size] or padded with
    [A]. *)
Definition draw (size : nat) (s : jsstring) : jsstring :=
  firstn size s ++ repeat 65%N (size - List.length s).

(** Every draw of [nanoid] gives the symbols of [s], as many as asked for; no
    call faults; the [n]-th call happens at time [n]. *)
Definition calm (s : string) : Env :=
  {| nanoid_out := fun size _ => draw size (js s);
     key_out := fun _ => js "k1";
     uuid_out := fun n => js "session-" ++ [N.of_nat (48 + n)];
     fault := fun _ => None;
     clock := fun n => N.of_nat n |}.

(** As [calm], but the call number [n] fails. *)
Definition failing (s : string) (n : nat) : Env :=
  {| nanoid_out := fun size _ => draw size (js s);
     key_out := fun _ => js "k1";
     uuid_out := fun k => js "session-" ++ [N.of_nat (48 + k)];
     fault := fun k => if k =? n then Some {| err_code := js "08006" |} else None;
     clock := fun k => N.of_nat k |}.

Definition ab12cd : Session :=
  {| id := js "s1"; code := js "AB12CD"; aes_key := Some (js "k1");
     device_ids := Some [js "phone"] |}.

Definition hello : ClipboardItem :=
  {| session_id := VStr (js "s1"); content := VStr (js "hello");
     from_device := VNull; created_at := 0 |}.

Definition one_session : DB :=
  {| sessions := [ab12cd]; clipboard_items := [hello] |}.

(** Three items of the session [s1], in the order of their insertion into
    the table but stamped out of order: the newest is the second. *)
Definition world : ClipboardItem :=
  {| session_id := VStr (js "s1"); content := VStr (js "world");
     from_device := VNull; created_at := 5 |}.

Definition again : ClipboardItem :=
  {| session_id := VStr (js "s1"); content := VStr (js "again");
     from_device := VNull; created_at := 3 |}.

Definition three_items : DB :=
  {| sessions := [ab12cd]; clipboard_items := [hello; world; again] |}.

End Scenario.

(** ** Rows and replies, for the properties beyond the claims *)

(** The roster a join reads: [data.device_ids || []]. *)
Definition roster (s : Session) : list jsstring :=
  match device_ids s with Some l => l | None => [] end.

(** The columns of a session no handler ever rewrites. *)
Definition identity (s : Session) : jsstring * jsstring * option jsstring :=
  (id s, code s, aes_key s).

(** The 200 reply of [JoinSession] for a row. *)
Definition join_reply (v : Variant) (row : Session) : Outcome :=
  match v with
  | KeyIssuingVariant =>
    Reply 200 [("sessionId", VStr (id row)); ("aesKey", opt_str (aes_key row))]%string
  | DeviceRosterVariant => Reply 200 [("sessionId", VStr (id row))]%string
  end.

(** The [from_device] column [Sync] stores. *)
Definition stored_from_device (v : Variant) (fromDevice : value) : value :=
  match v with
  | KeyIssuingVariant => VNull
  | DeviceRosterVariant => js_or fromDevice VNull
  end.

(** [d'] has every row of [d], in place, with its id, code and key: rows were
    only added at the end, and rosters possibly rewritten. *)
Definition keeps_rows (d d' : DB) : Prop :=
  (exists l, map identity (sessions d') = map identity (sessions d) ++ l) /\
  (exists l, clipboard_items d' = clipboard_items d ++ l).

(** The body of a reply. *)
Definition body_of (o : Outcome) : list (string * value) :=
  match o with Reply _ b => b | Unanswered _ => [] end.

Module Cases.

(** The first [n] draws of [nanoid] give [taken], the later ones [free]; no
    call faults. *)
Definition draws (taken free : string) (n : nat) : Env :=
  {| nanoid_out := fun size k =>
       Scenario.draw size (if k <? n then js taken else js free);
     key_out := fun _ => js "k1";
     uuid_out := fun k => js "session-" ++ [N.of_nat (48 + k)];
     fault := fun _ => None;
     clock := fun k => N.of_nat (S k) |}.

(** No call faults; the [n]-th call happens at time [n + 1]. *)
Definition later (s : string) : Env := draws s s 0.

(** The call number [n] fails with the error code [c]. *)
Definition failing_with (c : string) (n : nat) : Env :=
  {| nanoid_out := fun size _ => Scenario.draw size (js "ab12cd");
     key_out := fun _ => js "k1";
     uuid_out := fun k => js "session-" ++ [N.of_nat (48 + k)];
     fault := fun k => if k =? n then Some {| err_code := js c |} else None;
     clock := fun k => N.of_nat (S k) |}.

Definition other : Session :=
  {| id := js "s2"; code := js "QQ77QQ"; aes_key := None; device_ids := None |}.

Definition note : ClipboardItem :=
  {| session_id := VStr (js "s2"); content := VStr (js "note");
     from_device := VNull; created_at := 0 |}.

Definition two_sessions : DB :=
  {| sessions := [Scenario.ab12cd; other];
     clipboard_items := [Scenario.hello; note] |}.

End Cases.

Unset Implicit Arguments.

(** ** Strings and values *)

Lemma str_eqb_refl (a : jsstring) : str_eqb a a = true.
Proof.
  induction a as [|x a IH]; simpl; [reflexivity|].
  now rewrite N.eqb_refl.
Qed.

Lemma str_eqb_eq (a b : jsstring) : str_eqb a b = true <-> a = b.
Proof.
  split.
  - revert b.
    induction a as [|x a IH]; intros [|y b]; simpl; try discriminate; auto.
    intros H. apply andb_true_iff in H as [Hx Hr].
    apply N.eqb_eq in Hx. f_equal; auto.
  - intros ->. apply str_eqb_refl.
Qed.

Lemma str_eqb_neq (a b : jsstring) : str_eqb a b = false <-> a <> b.
Proof.
  rewrite <- str_eqb_eq. destruct (str_eqb a b); split; congruence.
Qed.

Lemma value_eqb_eq (a b : value) : value_eqb a b = true <-> a = b.
Proof.
  destruct a, b; simpl; split; intros H;
    try discriminate; try reflexivity;
    try (apply str_eqb_eq in H; congruence);
    try (injection H as ->; apply str_eqb_refl).
  - apply Bool.eqb_prop in H. congruence.
  - injection H as ->. apply Bool.eqb_reflx.
  - apply Z.eqb_eq in H. congruence.
  - injection H as ->. apply Z.eqb_refl.
Qed.

Lemma code_is_true (c : jsstring) (s : Session) :
  code_is (VStr c) s = true <-> code s = c.
Proof. unfold code_is. simpl. apply str_eqb_eq. Qed.

Lemma filter_none (T : Type) (f : T -> bool) (l : list T) :
  (forall x, In x l -> f x = false) -> filter f l = [].
Proof.
  induction l as [|x l IH]; intros H; simpl; [reflexivity|].
  rewrite (H x (or_introl eq_refl)). apply IH. intros y Hy. apply H. now right.
Qed.

Lemma no_session_with_code (c : jsstring) (l : list Session) :
  (forall s, In s l -> code s <> c) -> filter (code_is (VStr c)) l = [].
Proof.
  intros H. apply filter_none. intros s Hs.
  destruct (code_is (VStr c) s) eqn:E; [|reflexivity].
  apply code_is_true in E. now apply H in Hs.
Qed.

Lemma includes_false (l : list jsstring) (d : jsstring) :
  DeviceRoster.includes l d = false <-> ~ In d l.
Proof.
  unfold DeviceRoster.includes. split.
  - intros H Hin.
    assert (existsb (str_eqb d) l = true) as E
      by (apply existsb_exists; exists d; split; [assumption | apply str_eqb_refl]).
    congruence.
  - intros H. destruct (existsb (str_eqb d) l) eqn:E; [|reflexivity].
    apply existsb_exists in E as (x & Hx & Hd).
    apply str_eqb_eq in Hd. subst x. contradiction.
Qed.

(** ** The interpreter *)

Lemma run_bind (cfg : Config) (env : Env) (A B : Type)
      (m : Prog A) (f : A -> Prog B) (st : State) :
  run cfg env (bind m f) st =
  let '(a, st') := run cfg env m st in run cfg env (f a) st'.
Proof.
  revert st.
  induction m as [r|n k IH|n k IH|q k IH|msg k IH]; intros st; simpl; auto.
  destruct (exec cfg env q (List.length (trace st)) (db st)) as [r d]. apply IH.
Qed.

(** A lookup by code answers with a row only if exactly that row matches; it
    never touches the tables. *)
Lemma exec_select_session (cfg : Config) (env : Env) (c : value) (n : nat) (d : DB) :
  snd (exec cfg env (SelectSessionByCode c) n d) = d /\
  forall row,
    data (fst (exec cfg env (SelectSessionByCode c) n d)) = Some row ->
    filter (code_is c) (sessions d) = [row].
Proof.
  unfold exec. destruct (fault env n); simpl; [split; [reflexivity | discriminate]|].
  split; [reflexivity|].
  destruct (filter (code_is c) (sessions d)) as [|x [|y l]]; simpl;
    intros row H; try discriminate.
  now injection H as ->.
Qed.

Lemma six_chars_guard (c : value) :
  (negb (is_string c) || negb (js_length c =? 6))%bool = false <-> six_chars c.
Proof.
  unfold six_chars. split.
  - destruct c; simpl; try discriminate. intros H.
    apply negb_false_iff, Nat.eqb_eq in H. eauto.
  - intros (s & -> & H). simpl. now rewrite H.
Qed.

(** ** JoinSession: validation *)

(** C6. [JoinSession] answers 400 "Invalid code" whenever [code] is not a
    string of exactly 6 code units, in both variants; the handler is then a
    bare return, so it makes no call of the store and leaves the whole state
    (tables and call trace) as it found it. *)
Theorem join_session_invalid_code_no_storage_access :
  forall (v : Variant) (cfg : Config) (env : Env) (c deviceId : value) (st : State),
    ~ six_chars c ->
    join_session v c deviceId =
      Ret (Reply 400 [("error", VStr (js "Invalid code"))]%string) /\
    run cfg env (join_session v c deviceId) st =
      (Reply 400 [("error", VStr (js "Invalid code"))]%string, st).
Proof.
  intros v cfg env c deviceId st H.
  assert ((negb (is_string c) || negb (js_length c =? 6))%bool = true) as G.
  { destruct (negb (is_string c) || negb (js_length c =? 6))%bool eqn:E;
      [reflexivity|]. apply six_chars_guard in E. contradiction. }
  assert (join_session v c deviceId =
          Ret (Reply 400 [("error", VStr (js "Invalid code"))]%string)) as P.
  { destruct v; simpl;
      [unfold KeyIssuing.join_session | unfold DeviceRoster.join_session];
      now rewrite G. }
  split; [exact P|]. now rewrite P.
Qed.

Lemma join_session_invalid_code_witness :
  ~ six_chars (VStr (js "AB12C")) /\
  run Scenario.strict (Scenario.calm "abcdef")
      (join_session DeviceRosterVariant (VStr (js "AB12C")) VUndefined)
      (Scenario.start Scenario.one_session) =
  (Reply 400 [("error", VStr (js "Invalid code"))]%string,
   Scenario.start Scenario.one_session).
Proof.
  assert (~ six_chars (VStr (js "AB12C"))) as H.
  { intros (s & E & L). injection E as <-. vm_compute in L. discriminate. }
  split; [exact H|].
  apply (join_session_invalid_code_no_storage_access
           DeviceRosterVariant Scenario.strict (Scenario.calm "abcdef")
           (VStr (js "AB12C")) VUndefined (Scenario.start Scenario.one_session) H).
Defined.

(** ** JoinSession: unknown codes *)

(** Once [EndSession] has replied 200 for the session that carried a code, no
    live session carries that code. *)
Lemma end_session_frees_code (cfg : Config) (env : Env) (sessionId : value)
      (st : State) (body : list (string * value)) (st1 : State) (c : jsstring) :
  run cfg env (KeyIssuing.end_session sessionId) st = (Reply 200 body, st1) ->
  (forall s, In s (sessions (db st)) -> code s = c -> VStr (id s) = sessionId) ->
  forall s, In s (sessions (db st1)) -> code s <> c.
Proof.
  intros R Hid s Hs Hc. unfold KeyIssuing.end_session in R.
  destruct (truthy sessionId); simpl in R; [|discriminate].
  unfold exec in R. simpl in R.
  destruct (fault env (List.length (trace st)));
    destruct (fault env (List.length (trace st ++ [DeleteItemsBySession sessionId])));
    simpl in R; try discriminate;
    injection R as _ <-; simpl in Hs;
    apply filter_In in Hs as [Hs Hn];
    apply negb_true_iff in Hn;
    assert (id_is sessionId s = true) as X
        by (apply value_eqb_eq; now apply Hid);
    congruence.
Qed.

(** C7. For a 6-character code that no live session carries (never issued, or
    its session deleted), [JoinSession] answers 404 "Session not found" in
    both variants, whatever the store is configured to report for an empty
    lookup and whether or not the lookup faults; it makes that one lookup and
    changes no table. *)
Theorem join_session_unknown_code_not_found :
  forall (v : Variant) (cfg : Config) (env : Env) (c : jsstring)
         (deviceId : value) (st : State),
    List.length c = 6 ->
    (forall s, In s (sessions (db st)) -> code s <> c) ->
    run cfg env (join_session v (VStr c) deviceId) st =
      (Reply 404 [("error", VStr (js "Session not found"))]%string,
       {| db := db st; trace := trace st ++ [SelectSessionByCode (VStr c)];
          nanoids := nanoids st; keys := keys st; console := console st |}).
Proof.
  intros v cfg env c deviceId st L H.
  apply no_session_with_code in H.
  destruct v; simpl;
    [unfold KeyIssuing.join_session | unfold DeviceRoster.join_session];
    simpl; rewrite L; simpl; unfold exec;
    destruct (fault env (List.length (trace st))); simpl;
    try reflexivity;
    rewrite H; simpl; destruct (no_rows cfg); reflexivity.
Qed.

Lemma join_session_unknown_code_witness :
  (forall s, In s (sessions Scenario.one_session) -> code s <> js "ZZ99ZZ") /\
  run Scenario.strict (Scenario.calm "abcdef")
      (join_session KeyIssuingVariant (VStr (js "ZZ99ZZ")) VUndefined)
      (Scenario.start Scenario.one_session) =
  (Reply 404 [("error", VStr (js "Session not found"))]%string,
   {| db := Scenario.one_session;
      trace := [SelectSessionByCode (VStr (js "ZZ99ZZ"))];
      nanoids := 0; keys := 0; console := [] |}) /\
  fst (run Scenario.strict (Scenario.calm "abcdef")
           (join_session KeyIssuingVariant (VStr (js "AB12CD")) VUndefined)
           (snd (run Scenario.strict (Scenario.calm "abcdef")
                     (KeyIssuing.end_session (VStr (js "s1")))
                     (Scenario.start Scenario.one_session)))) =
  Reply 404 [("error", VStr (js "Session not found"))]%string.
Proof.
  assert (forall s, In s (sessions Scenario.one_session) -> code s <> js "ZZ99ZZ") as H.
  { intros s [<-|[]]. vm_compute. discriminate. }
  split; [exact H|]. split.
  - apply (join_session_unknown_code_not_found
             KeyIssuingVariant Scenario.strict (Scenario.calm "abcdef")
             (js "ZZ99ZZ") VUndefined (Scenario.start Scenario.one_session)
             eq_refl H).
  - assert (forall s,
               In s (sessions (db (snd (run Scenario.strict (Scenario.calm "abcdef")
                                            (KeyIssuing.end_session (VStr (js "s1")))
                                            (Scenario.start Scenario.one_session))))) ->
               code s <> js "AB12CD") as Hended.
    { apply (end_session_frees_code
               Scenario.strict (Scenario.calm "abcdef") (VStr (js "s1"))
               (Scenario.start Scenario.one_session)
               [("success", VBool true)]%string).
      - vm_compute. reflexivity.
      - intros s [<-|[]] _. reflexivity. }
    rewrite (join_session_unknown_code_not_found
               KeyIssuingVariant Scenario.strict (Scenario.calm "abcdef")
               (js "AB12CD") VUndefined _ eq_refl Hended).
    reflexivity.
Defined.

(** ** EndSession *)

(** C8. With a [sessionId] that passes the guard, [EndSession] calls the
    store twice, first to delete the clipboard items of the session, then to
    delete the session row, and it makes the second call whether or not the
    first one failed.  A first call that goes through removes exactly the
    items of that session.  If the second call fails the reply is 500
    "Failed to end session" and the sessions table is as before, the items
    staying removed; if it goes through the reply is 200 and the rows with
    that id are gone. *)
Theorem end_session_items_then_session :
  forall (cfg : Config) (env : Env) (sessionId : value) (st : State)
         (out : Outcome) (st' : State),
    truthy sessionId = true ->
    run cfg env (KeyIssuing.end_session sessionId) st = (out, st') ->
    trace st' =
      trace st ++ [DeleteItemsBySession sessionId; DeleteSessionById sessionId] /\
    (fault env (List.length (trace st)) = None ->
     clipboard_items (db st') =
       filter (fun it => negb (of_session sessionId it)) (clipboard_items (db st)) /\
     forall it, In it (clipboard_items (db st')) -> of_session sessionId it = false) /\
    (forall e, fault env (S (List.length (trace st))) = Some e ->
     out = Reply 500 [("error", VStr (js "Failed to end session"))]%string /\
     sessions (db st') = sessions (db st)) /\
    (fault env (S (List.length (trace st))) = None ->
     out = Reply 200 [("success", VBool true)]%string /\
     sessions (db st') = filter (fun s => negb (id_is sessionId s)) (sessions (db st))).
Proof.
  intros cfg env sessionId st out st' T R.
  unfold KeyIssuing.end_session in R. rewrite T in R. simpl in R.
  unfold exec in R. simpl in R.
  rewrite length_app, Nat.add_1_r in R.
  destruct (fault env (List.length (trace st))) as [e1|];
    destruct (fault env (S (List.length (trace st)))) as [e2|];
    simpl in R; injection R as <- <-; simpl; rewrite <- app_assoc; simpl;
    (split; [reflexivity|]); (split; [|split]);
    try discriminate; try (intros ? [=]); try (intros _);
    try (split; reflexivity).
  - split; [reflexivity|]. intros it Hit.
    apply filter_In in Hit as [_ Hit]. now apply negb_true_iff in Hit.
  - split; [reflexivity|]. intros it Hit.
    apply filter_In in Hit as [_ Hit]. now apply negb_true_iff in Hit.
Qed.

Lemma end_session_witness :
  truthy (VStr (js "s1")) = true /\
  fst (run Scenario.strict (Scenario.failing "abcdef" 1)
           (KeyIssuing.end_session (VStr (js "s1")))
           (Scenario.start Scenario.one_session)) =
    Reply 500 [("error", VStr (js "Failed to end session"))]%string /\
  db (snd (run Scenario.strict (Scenario.failing "abcdef" 1)
               (KeyIssuing.end_session (VStr (js "s1")))
               (Scenario.start Scenario.one_session))) =
    {| sessions := [Scenario.ab12cd]; clipboard_items := [] |}.
Proof.
  split; [reflexivity|].
  destruct (end_session_items_then_session
              Scenario.strict (Scenario.failing "abcdef" 1) (VStr (js "s1"))
              (Scenario.start Scenario.one_session) _ _
              eq_refl (surjective_pairing _))
    as (_ & Hitems & Hfail & _).
  destruct (Hfail {| err_code := js "08006" |} eq_refl) as [Hout Hsess].
  destruct (Hitems eq_refl) as [Hi _].
  split; [exact Hout|].
  destruct (db (snd _)) as [ss its]. simpl in Hsess, Hi. now rewrite Hsess, Hi.
Defined.

(** ** JoinSession: the device roster *)

(** The roster the handler reads: [data.device_ids || []]. *)
Lemma roster_nodup_current (s : Session) :
  roster_nodup s ->
  NoDup (match device_ids s with Some l => l | None => [] end).
Proof.
  unfold roster_nodup. destruct (device_ids s); [auto | constructor].
Qed.

Lemma nodup_snoc (l : list jsstring) (d : jsstring) :
  NoDup l -> ~ In d l -> NoDup (l ++ [d]).
Proof.
  intros Hl Hd. induction Hl as [|x l Hx Hl IH]; simpl.
  - constructor; [intros [] | constructor].
  - constructor.
    + rewrite in_app_iff. intros [H|[H|[]]]; [contradiction|].
      subst. apply Hd. now left.
    + apply IH. intros H. apply Hd. now right.
Qed.

(** What the roster update of a join does to the state: nothing, or one
    [UpdateDeviceIds] call with the looked-up roster extended by a device
    that was not in it. *)
Lemma run_roster_update (cfg : Config) (env : Env) (d : Session)
      (deviceId : value) (st : State) :
  let current := match device_ids d with Some l => l | None => [] end in
  let p := (if (truthy deviceId && is_string deviceId)%bool then
              match deviceId with
              | VStr dev =>
                if negb (DeviceRoster.includes current dev) then
                  supabase (UpdateDeviceIds (id d) (current ++ [dev]));;; Ret tt
                else Ret tt
              | _ => Ret tt
              end
            else Ret tt) in
  run cfg env p st = (tt, st) \/
  exists dev,
    deviceId = VStr dev /\ dev <> [] /\ ~ In dev current /\
    run cfg env p st =
      (tt,
       {| db := snd (exec cfg env (UpdateDeviceIds (id d) (current ++ [dev]))
                          (List.length (trace st)) (db st));
          trace := trace st ++ [UpdateDeviceIds (id d) (current ++ [dev])];
          nanoids := nanoids st; keys := keys st; console := console st |}).
Proof.
  intros current p. subst p.
  destruct deviceId as [| |b|z|dev|o]; simpl;
    try (left; reflexivity);
    try (destruct b; left; reflexivity);
    try (destruct (negb (z =? 0)%Z); left; reflexivity).
  destruct dev as [|u dev]; [left; reflexivity|].
  destruct (DeviceRoster.includes current (u :: dev)) eqn:E; simpl;
    [left; reflexivity|].
  right. exists (u :: dev). apply includes_false in E.
  repeat split; [discriminate | exact E |].
  destruct (exec cfg env _ _ _) as [r d']. reflexivity.
Qed.

Lemma exec_update_nodup (cfg : Config) (env : Env) (i : jsstring)
      (ids : list jsstring) (n : nat) (d : DB) :
  NoDup ids ->
  (forall s, In s (sessions d) -> roster_nodup s) ->
  forall s, In s (sessions (snd (exec cfg env (UpdateDeviceIds i ids) n d))) ->
            roster_nodup s.
Proof.
  intros Hids H s. unfold exec. destruct (fault env n); simpl; [apply H|].
  rewrite in_map_iff. intros (x & <- & Hx).
  destruct (id_is (VStr i) x); [exact Hids | now apply H].
Qed.

(** C9. Under [JoinSession] of the device-roster variant, a sessions table
    whose rosters are all duplicate-free stays so, for every request and
    whatever the store answers: the only roster the handler ever writes is
    the looked-up one followed by a [deviceId] that was not in it. *)
Theorem join_session_roster_stays_duplicate_free :
  forall (cfg : Config) (env : Env) (c deviceId : value) (st : State)
         (out : Outcome) (st' : State),
    (forall s, In s (sessions (db st)) -> roster_nodup s) ->
    run cfg env (DeviceRoster.join_session c deviceId) st = (out, st') ->
    (forall s, In s (sessions (db st')) -> roster_nodup s) /\
    (forall i ids, In (UpdateDeviceIds i ids) (trace st') ->
                   In (UpdateDeviceIds i ids) (trace st) \/
                   exists s dev,
                     In s (sessions (db st)) /\ i = id s /\ deviceId = VStr dev /\
                     ids = match device_ids s with Some l => l | None => [] end ++ [dev] /\
                     ~ In dev (match device_ids s with Some l => l | None => [] end)).
Proof.
  intros cfg env c deviceId st out st' Inv R.
  unfold DeviceRoster.join_session in R.
  destruct (negb (is_string c) || negb (js_length c =? 6))%bool.
  { simpl in R. injection R as <- <-. split; [exact Inv | auto]. }
  rewrite run_bind in R. simpl in R.
  pose proof (exec_select_session cfg env c (List.length (trace st)) (db st))
    as [Hdb Hrow].
  destruct (exec cfg env (SelectSessionByCode c) (List.length (trace st)) (db st))
    as [r d0]. simpl in Hdb, Hrow. subst d0.
  assert (forall i ids,
             In (UpdateDeviceIds i ids) (trace st ++ [SelectSessionByCode c]) ->
             In (UpdateDeviceIds i ids) (trace st)) as Hold.
  { intros i ids Hin. apply in_app_iff in Hin as [Hin|[Hin|[]]];
      [assumption | discriminate]. }
  destruct r as [[row|] [e|]]; simpl in R, Hrow;
    try (injection R as <- <-; simpl; split; [exact Inv | auto]; fail).
  specialize (Hrow row eq_refl).
  assert (In row (sessions (db st))) as Hin.
  { assert (In row (filter (code_is c) (sessions (db st)))) as Hf
        by (rewrite Hrow; now left).
    now apply filter_In in Hf as [Hf _]. }
  rewrite run_bind in R.
  match type of R with
  | context [run cfg env ?p ?s] =>
    destruct (run_roster_update cfg env row deviceId s)
      as [Hp|(dev & Hd & Hne & Hni & Hp)];
      cbv zeta in Hp;
      match type of Hp with
      | _ = ?x => replace (run cfg env p s) with x in R by (symmetry; exact Hp)
      end
  end.
  - simpl in R. injection R as <- <-. simpl. split; [exact Inv | auto].
  - simpl in R. injection R as <- <-. simpl. split.
    + apply exec_update_nodup; [|exact Inv].
      apply nodup_snoc; [apply roster_nodup_current; now apply Inv | exact Hni].
    + intros i ids Hi. apply in_app_iff in Hi as [Hi|[Hi|[]]].
      * left. now apply Hold.
      * right. injection Hi as <- <-. exists row, dev. auto 6.
Qed.

Lemma join_session_roster_witness :
  (forall s, In s (sessions (db (Scenario.start Scenario.one_session))) ->
             roster_nodup s) /\
  (forall s,
      In s (sessions (db (snd (run Scenario.strict (Scenario.calm "abcdef")
                                   (DeviceRoster.join_session
                                      (VStr (js "AB12CD")) (VStr (js "laptop")))
                                   (Scenario.start Scenario.one_session))))) ->
      roster_nodup s).
Proof.
  assert (forall s, In s (sessions (db (Scenario.start Scenario.one_session))) ->
                    roster_nodup s) as H.
  { intros s [<-|[]]. unfold roster_nodup. simpl.
    constructor; [intros [] | constructor]. }
  split; [exact H|].
  apply (join_session_roster_stays_duplicate_free
           Scenario.strict (Scenario.calm "abcdef")
           (VStr (js "AB12CD")) (VStr (js "laptop"))
           (Scenario.start Scenario.one_session) _ _ H (surjective_pairing _)).
Defined.

(** C10. In the device-roster variant, when the lookup finds the session and
    the [deviceId] is a new one, [JoinSession] replies 200 with the
    [sessionId] whether or not the roster update goes through: it awaits the
    update and drops its result.  When the update fails, the tables are
    unchanged (the device is not on the persisted roster), nothing is logged,
    and the reply is the same 200. *)
Theorem join_session_discards_roster_update_error :
  forall (cfg : Config) (env : Env) (c dev : jsstring) (row : Session)
         (st : State) (out : Outcome) (st' : State),
    List.length c = 6 ->
    dev <> [] ->
    filter (code_is (VStr c)) (sessions (db st)) = [row] ->
    ~ In dev (match device_ids row with Some l => l | None => [] end) ->
    fault env (List.length (trace st)) = None ->
    run cfg env (DeviceRoster.join_session (VStr c) (VStr dev)) st = (out, st') ->
    out = Reply 200 [("sessionId", VStr (id row))]%string /\
    trace st' =
      trace st ++
        [SelectSessionByCode (VStr c);
         UpdateDeviceIds (id row)
           (match device_ids row with Some l => l | None => [] end ++ [dev])] /\
    console st' = console st /\
    (forall e, fault env (S (List.length (trace st))) = Some e -> db st' = db st).
Proof.
  intros cfg env c dev row st out st' L Hdev Hrow Hnew F0 R.
  unfold DeviceRoster.join_session in R. simpl in R. rewrite L in R. simpl in R.
  unfold exec at 1 in R. rewrite F0 in R. simpl in R. rewrite Hrow in R.
  simpl in R.
  destruct dev as [|u dev]; [congruence|].
  apply includes_false in Hnew. rewrite Hnew in R. simpl in R.
  rewrite length_app, Nat.add_1_r in R.
  unfold exec in R.
  destruct (fault env (S (List.length (trace st)))) as [e|];
    simpl in R; injection R as <- <-; simpl; rewrite <- app_assoc; simpl;
    repeat split; try reflexivity; discriminate.
Qed.

Lemma join_session_discards_witness :
  fst (run Scenario.strict (Scenario.failing "abcdef" 1)
           (DeviceRoster.join_session (VStr (js "AB12CD")) (VStr (js "laptop")))
           (Scenario.start Scenario.one_session)) =
    Reply 200 [("sessionId", VStr (js "s1"))]%string /\
  db (snd (run Scenario.strict (Scenario.failing "abcdef" 1)
               (DeviceRoster.join_session (VStr (js "AB12CD")) (VStr (js "laptop")))
               (Scenario.start Scenario.one_session))) =
    Scenario.one_session.
Proof.
  assert (~ In (js "laptop") [js "phone"]) as Hnew.
  { intros [H|[]]. vm_compute in H. discriminate. }
  assert (js "laptop" <> []) as Hdev by discriminate.
  destruct (join_session_discards_roster_update_error
              Scenario.strict (Scenario.failing "abcdef" 1)
              (js "AB12CD") (js "laptop") Scenario.ab12cd
              (Scenario.start Scenario.one_session) _ _
              eq_refl Hdev eq_refl Hnew eq_refl
              (surjective_pairing _))
    as (Hout & _ & _ & Hdb).
  split; [exact Hout | exact (Hdb {| err_code := js "08006" |} eq_refl)].
Defined.

(** ** Sync *)

Lemma nonempty_string_passes (v : Variant) (sessionId clip : value) :
  nonempty_string sessionId -> nonempty_string clip ->
  sync_rejects v sessionId clip = false.
Proof.
  intros (s & -> & Hs) (c & -> & Hc).
  destruct v, s, c; simpl; congruence.
Qed.

(** What a [Sync] that passes the guard does: one insert; then 200 with the
    row appended, or 500 with the tables as before. *)
Lemma run_sync_accepted (v : Variant) (cfg : Config) (env : Env)
      (sessionId clip fromDevice : value) (st : State) (out : Outcome) (st' : State) :
  sync_rejects v sessionId clip = false ->
  run cfg env (sync v sessionId clip fromDevice) st = (out, st') ->
  trace st' = trace st ++ [sync_query v sessionId clip fromDevice] /\
  sessions (db st') = sessions (db st) /\
  ((fault env (List.length (trace st)) = None /\
    out = Reply 200 [("success", VBool true)]%string /\
    exists it,
      clipboard_items (db st') = clipboard_items (db st) ++ [it] /\
      session_id it = sessionId /\ content it = clip /\
      created_at it = clock env (List.length (trace st))) \/
   (fault env (List.length (trace st)) <> None /\
    out = Reply 500 [("error", VStr (js "Failed to sync"))]%string /\
    db st' = db st)).
Proof.
  intros G R.
  destruct v; simpl in G, R;
    [unfold KeyIssuing.sync in R | unfold DeviceRoster.sync in R];
    rewrite G in R; simpl in R; unfold exec in R;
    destruct (fault env (List.length (trace st))) as [e|];
    simpl in R; injection R as <- <-; simpl;
    (split; [reflexivity|]); (split; [reflexivity|]).
  - right. split; [discriminate|]. split; reflexivity.
  - left. split; [reflexivity|]. split; [reflexivity|].
    eexists. repeat split.
  - right. split; [discriminate|]. split; reflexivity.
  - left. split; [reflexivity|]. split; [reflexivity|].
    eexists. repeat split.
Qed.

(** C3, as the code has it.  [Sync] answers 400 exactly when its guard fires:
    in the key-issuing variant when [sessionId] or [clip] is falsy, in the
    device-roster variant when one of them is not a string.  Non-empty
    strings pass both guards.  A rejected request leaves the state alone; an
    accepted one makes one insert and either replies 200 with exactly one
    clipboard item appended, carrying that [sessionId] and content, or
    replies 500 "Failed to sync" with the tables unchanged. *)
Theorem sync_guard_then_append :
  forall (v : Variant) (cfg : Config) (env : Env)
         (sessionId clip fromDevice : value) (st : State)
         (out : Outcome) (st' : State),
    run cfg env (sync v sessionId clip fromDevice) st = (out, st') ->
    (status_of out = Some 400 <-> sync_rejects v sessionId clip = true) /\
    (nonempty_string sessionId -> nonempty_string clip ->
     sync_rejects v sessionId clip = false) /\
    (sync_rejects v sessionId clip = true -> st' = st) /\
    (sync_rejects v sessionId clip = false ->
     trace st' = trace st ++ [sync_query v sessionId clip fromDevice] /\
     sessions (db st') = sessions (db st) /\
     ((out = Reply 200 [("success", VBool true)]%string /\
       exists it,
         clipboard_items (db st') = clipboard_items (db st) ++ [it] /\
         session_id it = sessionId /\ content it = clip) \/
      (out = Reply 500 [("error", VStr (js "Failed to sync"))]%string /\
       db st' = db st))).
Proof.
  intros v cfg env sessionId clip fromDevice st out st' R.
  destruct (sync_rejects v sessionId clip) eqn:G.
  - assert (status_of out = Some 400 /\ st' = st) as [Hs Hst].
    { destruct v; simpl in G, R;
        [unfold KeyIssuing.sync in R | unfold DeviceRoster.sync in R];
        rewrite G in R; simpl in R; injection R as <- <-; split; reflexivity. }
    split; [tauto|]. split; [|split].
    + intros H1 H2. pose proof (nonempty_string_passes v _ _ H1 H2). congruence.
    + intros _. exact Hst.
    + discriminate.
  - destruct (run_sync_accepted v cfg env _ _ _ st out st' G R)
      as (Ht & Hs & Hcase).
    split; [|split; [|split]].
    + split; [|discriminate].
      destruct Hcase as [(_ & -> & _)|(_ & -> & _)]; discriminate.
    + intros _ _. reflexivity.
    + discriminate.
    + intros _. split; [exact Ht|]. split; [exact Hs|].
      destruct Hcase as [(_ & Ho & it & Hi & H1 & H2 & _)|(_ & Ho & Hd)].
      * left. split; [exact Ho|]. exists it. auto.
      * right. auto.
Qed.

Lemma sync_guard_witness :
  status_of
    (fst (run Scenario.strict (Scenario.calm "abcdef")
              (sync DeviceRosterVariant (VStr (js "s1")) VNull VUndefined)
              (Scenario.start Scenario.one_session))) = Some 400.
Proof.
  apply (sync_guard_then_append
           DeviceRosterVariant Scenario.strict (Scenario.calm "abcdef")
           (VStr (js "s1")) VNull VUndefined
           (Scenario.start Scenario.one_session) _ _ (surjective_pairing _)).
  reflexivity.
Defined.

(** C3 as stated fails in both variants: the key-issuing variant accepts a
    truthy [sessionId] that is not a string (here the number 1), and the
    device-roster variant accepts empty strings; neither request is answered
    400, both are answered 200. *)
Lemma sync_invalid_input_counterexample :
  ~ nonempty_string (VNum 1) /\
  fst (run Scenario.strict (Scenario.calm "abcdef")
           (sync KeyIssuingVariant (VNum 1) (VStr (js "hello")) VUndefined)
           (Scenario.start Scenario.empty_db)) =
    Reply 200 [("success", VBool true)]%string /\
  ~ nonempty_string (VStr (js "")) /\
  fst (run Scenario.strict (Scenario.calm "abcdef")
           (sync DeviceRosterVariant (VStr (js "")) (VStr (js "")) VUndefined)
           (Scenario.start Scenario.empty_db)) =
    Reply 200 [("success", VBool true)]%string.
Proof.
  repeat split; try reflexivity.
  - intros (s & E & _). discriminate.
  - intros (s & E & H). injection E as <-. now apply H.
Qed.

(** ** Latest *)

(** The first row in decreasing order of [created_at] is a row of the list
    that no other row is newer than. *)
Lemma order_desc_head (l : list ClipboardItem) :
  match order_desc l with
  | [] => l = []
  | it :: _ => In it l /\ forall x, In x l -> (created_at x <= created_at it)%N
  end.
Proof.
  induction l as [|x l IH]; simpl; [reflexivity|].
  destruct (order_desc l) as [|it rest]; simpl.
  - subst l. split; [now left|]. intros y [<-|[]]. apply N.le_refl.
  - destruct IH as [Hin Hmax].
    destruct (N.ltb (created_at it) (created_at x)) eqn:E.
    + apply N.ltb_lt in E. split; [now left|].
      intros y [<-|Hy]; [apply N.le_refl|].
      apply Hmax in Hy. lia.
    + apply N.ltb_ge in E. split; [now right|].
      intros y [<-|Hy]; [exact E | now apply Hmax].
Qed.

(** [Latest] is one [LatestItem] call; its reply is decided by the fault
    oracle and the first row in decreasing order. *)
Lemma run_latest (v : Variant) (cfg : Config) (env : Env) (sid : jsstring) (st : State) :
  run cfg env (latest v sid) st =
  (match fault env (List.length (trace st)) with
   | Some _ => not_found_reply v
   | None =>
     match order_desc (filter (of_session (VStr sid)) (clipboard_items (db st))) with
     | [] => not_found_reply v
     | it :: _ => latest_reply v it
     end
   end,
   {| db := db st; trace := trace st ++ [LatestItem (VStr sid)];
      nanoids := nanoids st; keys := keys st; console := console st |}).
Proof.
  destruct v; simpl;
    [unfold KeyIssuing.latest | unfold DeviceRoster.latest];
    simpl; unfold exec;
    destruct (fault env (List.length (trace st))); simpl; try reflexivity;
    destruct (order_desc _) as [|it rest]; simpl;
    try reflexivity; destruct (no_rows cfg); reflexivity.
Qed.

(** With the store answering and an item of the session in the table,
    [Latest] replies with an item of the session that none is newer than. *)
Lemma run_latest_newest (v : Variant) (cfg : Config) (env : Env) (sid : jsstring)
      (st : State) (it0 : ClipboardItem) :
  fault env (List.length (trace st)) = None ->
  In it0 (clipboard_items (db st)) -> session_id it0 = VStr sid ->
  exists it,
    In it (clipboard_items (db st)) /\ session_id it = VStr sid /\
    (forall x, In x (clipboard_items (db st)) -> session_id x = VStr sid ->
               (created_at x <= created_at it)%N) /\
    fst (run cfg env (latest v sid) st) = latest_reply v it.
Proof.
  intros F H0 S0. rewrite run_latest, F. simpl.
  pose proof (order_desc_head
                (filter (of_session (VStr sid)) (clipboard_items (db st)))) as H.
  destruct (order_desc _) as [|it rest].
  - assert (In it0 (filter (of_session (VStr sid)) (clipboard_items (db st)))) as X
        by (apply filter_In; split; [exact H0 | now apply value_eqb_eq]).
    rewrite H in X. destruct X.
  - destruct H as [Hin Hmax]. apply filter_In in Hin as [Hin Hsid].
    apply value_eqb_eq in Hsid.
    exists it. repeat split; auto.
    intros x Hx Hxs. apply Hmax. apply filter_In. split; [exact Hx|].
    now apply value_eqb_eq.
Qed.

(** C4. [Latest] reads the clipboard items of the session and changes no
    table.  With no item for the session (the session never existed, or was
    ended) it answers 404.  With items, and the store answering, it answers
    200 with one of them, one that no other item of the session is newer
    than.  (A failing store is answered 404 as well.) *)
Theorem latest_returns_newest_item :
  forall (v : Variant) (cfg : Config) (env : Env) (sid : jsstring) (st : State)
         (out : Outcome) (st' : State),
    run cfg env (latest v sid) st = (out, st') ->
    db st' = db st /\
    (filter (of_session (VStr sid)) (clipboard_items (db st)) = [] ->
     out = not_found_reply v) /\
    (filter (of_session (VStr sid)) (clipboard_items (db st)) <> [] ->
     fault env (List.length (trace st)) = None ->
     exists it,
       In it (clipboard_items (db st)) /\ session_id it = VStr sid /\
       (forall x, In x (clipboard_items (db st)) -> session_id x = VStr sid ->
                  (created_at x <= created_at it)%N) /\
       out = latest_reply v it) /\
    (fault env (List.length (trace st)) <> None -> out = not_found_reply v).
Proof.
  intros v cfg env sid st out st' R.
  assert (out = fst (run cfg env (latest v sid) st)) as Hout by now rewrite R.
  rewrite run_latest in R. injection R as Ho <-. simpl.
  split; [reflexivity|]. split; [|split].
  - intros E. rewrite <- Ho, E. simpl. now destruct (fault env _).
  - intros Hne F.
    destruct (filter (of_session (VStr sid)) (clipboard_items (db st)))
      as [|it0 l] eqn:E; [contradiction|].
    assert (In it0 (filter (of_session (VStr sid)) (clipboard_items (db st)))) as X
        by (rewrite E; now left).
    apply filter_In in X as [H0 S0]. apply value_eqb_eq in S0.
    destruct (run_latest_newest v cfg env sid st it0 F H0 S0)
      as (it & Hin & Hs & Hmax & Hr).
    exists it. rewrite Hout. auto.
  - intros F. rewrite <- Ho.
    destruct (fault env _); [reflexivity | contradiction].
Qed.

Lemma latest_newest_witness :
  fst (run Scenario.strict (Scenario.calm "abcdef")
           (latest KeyIssuingVariant (js "s1"))
           (Scenario.start Scenario.three_items)) =
    Reply 200 [("clip", VStr (js "world"))]%string /\
  fst (run Scenario.strict (Scenario.calm "abcdef")
           (latest DeviceRosterVariant (js "s1"))
           (Scenario.start Scenario.three_items)) =
    Reply 200 [("content", VStr (js "world")); ("fromDevice", VNull);
               ("timestamp", VNum 5)]%string /\
  fst (run Scenario.strict (Scenario.calm "abcdef")
           (latest KeyIssuingVariant (js "s1"))
           (Scenario.start Scenario.one_session)) =
    Reply 200 [("clip", VStr (js "hello"))]%string /\
  fst (run Scenario.strict (Scenario.calm "abcdef")
           (latest DeviceRosterVariant (js "gone"))
           (Scenario.start Scenario.one_session)) =
    Reply 404 [("error", VStr (js "No data found"))]%string.
Proof.
  assert (In Scenario.world
             (clipboard_items (db (Scenario.start Scenario.three_items))))
    as Hworld by (right; now left).
  split; [|split; [|split]].
  - destruct (latest_returns_newest_item
                KeyIssuingVariant Scenario.strict (Scenario.calm "abcdef")
                (js "s1") (Scenario.start Scenario.three_items) _ _
                (surjective_pairing _)) as (_ & _ & H & _).
    destruct H as (it & Hin & _ & Hmax & Hout);
      [discriminate | reflexivity |].
    specialize (Hmax Scenario.world Hworld eq_refl).
    destruct Hin as [<-|[<-|[<-|[]]]].
    + exfalso. exact (Hmax eq_refl).
    + exact Hout.
    + exfalso. exact (Hmax eq_refl).
  - destruct (latest_returns_newest_item
                DeviceRosterVariant Scenario.strict (Scenario.calm "abcdef")
                (js "s1") (Scenario.start Scenario.three_items) _ _
                (surjective_pairing _)) as (_ & _ & H & _).
    destruct H as (it & Hin & _ & Hmax & Hout);
      [discriminate | reflexivity |].
    specialize (Hmax Scenario.world Hworld eq_refl).
    destruct Hin as [<-|[<-|[<-|[]]]].
    + exfalso. exact (Hmax eq_refl).
    + exact Hout.
    + exfalso. exact (Hmax eq_refl).
  - destruct (latest_returns_newest_item
                KeyIssuingVariant Scenario.strict (Scenario.calm "abcdef")
                (js "s1") (Scenario.start Scenario.one_session) _ _
                (surjective_pairing _)) as (_ & _ & H & _).
    destruct H as (it & Hin & _ & _ & Hout);
      [discriminate | reflexivity |].
    destruct Hin as [<-|[]]. exact Hout.
  - destruct (latest_returns_newest_item
                DeviceRosterVariant Scenario.strict (Scenario.calm "abcdef")
                (js "gone") (Scenario.start Scenario.one_session) _ _
                (surjective_pairing _)) as (_ & H & _).
    exact (H eq_refl).
Defined.

Lemma reply_content_latest (v : Variant) (it : ClipboardItem) :
  reply_content v (latest_reply v it) = Some (content it) /\
  status_of (latest_reply v it) = Some 200.
Proof. destruct v; split; reflexivity. Qed.

(** C5. On a store that answers, whose clock moves strictly forward between
    the two inserts and is not behind the items the session already has:
    [Sync(sessionId, c1)], then [Sync(sessionId, c2)], then
    [Latest(sessionId)] replies 200 with content [c2], hence not [c1] when
    the two differ.  Both variants. *)
Theorem sync_twice_then_latest_returns_second :
  forall (v : Variant) (cfg : Config) (env : Env) (sid c1 c2 : jsstring)
         (f1 f2 : value) (st : State)
         (o1 : Outcome) (st1 : State) (o2 : Outcome) (st2 : State)
         (o3 : Outcome) (st3 : State),
    sid <> [] -> c1 <> [] -> c2 <> [] ->
    fault env (List.length (trace st)) = None ->
    fault env (S (List.length (trace st))) = None ->
    fault env (S (S (List.length (trace st)))) = None ->
    (forall it, In it (clipboard_items (db st)) -> session_id it = VStr sid ->
                (created_at it <= clock env (List.length (trace st)))%N) ->
    (clock env (List.length (trace st)) < clock env (S (List.length (trace st))))%N ->
    run cfg env (sync v (VStr sid) (VStr c1) f1) st = (o1, st1) ->
    run cfg env (sync v (VStr sid) (VStr c2) f2) st1 = (o2, st2) ->
    run cfg env (latest v sid) st2 = (o3, st3) ->
    status_of o3 = Some 200 /\
    reply_content v o3 = Some (VStr c2) /\
    (c1 <> c2 -> reply_content v o3 <> Some (VStr c1)).
Proof.
  intros v cfg env sid c1 c2 f1 f2 st o1 st1 o2 st2 o3 st3
         Hsid Hc1 Hc2 F0 F1 F2 Hold Hclock R1 R2 R3.
  assert (forall c, c <> [] -> sync_rejects v (VStr sid) (VStr c) = false) as G.
  { intros c Hc. apply nonempty_string_passes; eexists; eauto. }
  destruct (run_sync_accepted v cfg env _ _ _ st o1 st1 (G c1 Hc1) R1)
    as (T1 & _ & [(_ & _ & i1 & I1 & S1 & C1 & A1)|(F & _)]); [|congruence].
  assert (List.length (trace st1) = S (List.length (trace st))) as L1
      by (rewrite T1, length_app, Nat.add_1_r; reflexivity).
  destruct (run_sync_accepted v cfg env _ _ _ st1 o2 st2 (G c2 Hc2) R2)
    as (T2 & _ & [(_ & _ & i2 & I2 & S2 & C2 & A2)|(F & _)]);
    [|rewrite L1 in F; congruence].
  assert (List.length (trace st2) = S (S (List.length (trace st)))) as L2
      by (rewrite T2, length_app, Nat.add_1_r, L1; reflexivity).
  rewrite L1 in A2. rewrite I1 in I2.
  assert (In i2 (clipboard_items (db st2))) as Hi2
      by (rewrite I2; apply in_app_iff; right; now left).
  rewrite <- L2 in F2.
  destruct (run_latest_newest v cfg env sid st2 i2 F2 Hi2 S2)
    as (it & Hin & Hs & Hmax & Hr).
  rewrite R3 in Hr. simpl in Hr. subst o3.
  assert (it = i2) as ->.
  { assert (created_at i2 <= created_at it)%N as Hle.
    { apply Hmax; [|exact S2]. rewrite I2. apply in_app_iff. right. now left. }
    rewrite I2 in Hin. apply in_app_iff in Hin as [Hin|[<-|[]]]; [|reflexivity].
    apply in_app_iff in Hin as [Hin|[<-|[]]].
    - apply Hold in Hin; [|exact Hs]. lia.
    - lia. }
  destruct (reply_content_latest v i2) as [-> ->]. rewrite C2.
  split; [reflexivity|]. split; [reflexivity|]. congruence.
Qed.

Lemma sync_twice_then_latest_witness :
  reply_content KeyIssuingVariant
    (fst (run Scenario.strict (Scenario.calm "abcdef")
              (latest KeyIssuingVariant (js "s1"))
              (snd (run Scenario.strict (Scenario.calm "abcdef")
                        (sync KeyIssuingVariant (VStr (js "s1")) (VStr (js "world"))
                              VUndefined)
                        (snd (run Scenario.strict (Scenario.calm "abcdef")
                                  (sync KeyIssuingVariant (VStr (js "s1"))
                                        (VStr (js "hello")) VUndefined)
                                  (Scenario.start Scenario.one_session)))))))
  = Some (VStr (js "world")).
Proof.
  assert (forall it,
             In it (clipboard_items (db (Scenario.start Scenario.one_session))) ->
             session_id it = VStr (js "s1") ->
             (created_at it <=
              clock (Scenario.calm "abcdef")
                    (List.length (trace (Scenario.start Scenario.one_session))))%N)
    as Hold.
  { intros it [<-|[]] _. apply N.le_refl. }
  assert (js "s1" <> [] /\ js "hello" <> [] /\ js "world" <> []) as (H1 & H2 & H3).
  { repeat split; discriminate. }
  apply (sync_twice_then_latest_returns_second
           KeyIssuingVariant Scenario.strict (Scenario.calm "abcdef")
           (js "s1") (js "hello") (js "world") VUndefined VUndefined
           (Scenario.start Scenario.one_session) _ _ _ _ _ _
           H1 H2 H3 eq_refl eq_refl eq_refl Hold eq_refl
           (surjective_pairing _) (surjective_pairing _) (surjective_pairing _)).
Defined.

(** ** CreateSession: the store calls *)

(** The lookup of [generateUniqueSessionCode] changes no table; it answers
    "no data, no error" only on a store configured to do so and only when no
    session carries the code; when a session carries the code it answers with
    data or with an error. *)
Lemma exec_select_id (cfg : Config) (env : Env) (c : jsstring) (n : nat) (d : DB) :
  snd (exec cfg env (SelectSessionIdByCode (VStr c)) n d) = d /\
  ((negb (is_some (data (fst (exec cfg env (SelectSessionIdByCode (VStr c)) n d)))) &&
    negb (is_some (error (fst (exec cfg env (SelectSessionIdByCode (VStr c)) n d)))))%bool
   = true ->
   no_rows cfg = None /\ forall s, In s (sessions d) -> code s <> c) /\
  ((exists s, In s (sessions d) /\ code s = c) ->
   (negb (is_some (data (fst (exec cfg env (SelectSessionIdByCode (VStr c)) n d)))) &&
    negb (is_some (error (fst (exec cfg env (SelectSessionIdByCode (VStr c)) n d)))))%bool
   = false).
Proof.
  unfold exec. destruct (fault env n); simpl.
  { split; [reflexivity|]. split; [discriminate | reflexivity]. }
  split; [reflexivity|].
  destruct (filter (code_is (VStr c)) (sessions d)) as [|x [|y l]] eqn:E; simpl.
  - split.
    + intros H. destruct (no_rows cfg); [discriminate|]. split; [reflexivity|].
      intros s Hs Hc.
      assert (In s (filter (code_is (VStr c)) (sessions d))) as X
          by (apply filter_In; split; [exact Hs | now apply code_is_true]).
      rewrite E in X. destruct X.
    + intros (s & Hs & Hc).
      assert (In s (filter (code_is (VStr c)) (sessions d))) as X
          by (apply filter_In; split; [exact Hs | now apply code_is_true]).
      rewrite E in X. destruct X.
  - split; [discriminate | reflexivity].
  - split; [discriminate | reflexivity].
Qed.

(** An insert into [sessions] either answers with the new row, appended to
    the table (and, under the uniqueness constraint, carrying a code no
    session had), or answers with an error and changes nothing. *)
Lemma exec_insert_session (cfg : Config) (env : Env) (c : jsstring)
      (key : option jsstring) (n : nat) (d : DB) :
  (exists row,
      exec cfg env (InsertSession c key) n d =
        ({| data := Some row; error := None |},
         {| sessions := sessions d ++ [row]; clipboard_items := clipboard_items d |}) /\
      code row = c /\ fault env n = None /\
      (unique_code cfg = true -> forall s, In s (sessions d) -> code s <> c)) \/
  (exists e,
      exec cfg env (InsertSession c key) n d = (failed Session e, d) /\
      (fault env n = Some e \/
       (fault env n = None /\ e = unique_violation /\ unique_code cfg = true /\
        exists s, In s (sessions d) /\ code s = c))).
Proof.
  unfold exec. destruct (fault env n) as [e|]; simpl.
  { right. exists e. auto. }
  destruct (unique_code cfg) eqn:U; simpl.
  - destruct (existsb (code_is (VStr c)) (sessions d)) eqn:E.
    + right. exists unique_violation. split; [reflexivity|]. right.
      apply existsb_exists in E as (s & Hs & Hc). apply code_is_true in Hc.
      repeat split; eauto.
    + left. eexists. split; [reflexivity|]. repeat split.
      intros _ s Hs Hc.
      assert (existsb (code_is (VStr c)) (sessions d) = true) as X
          by (apply existsb_exists; exists s; split;
              [exact Hs | now apply code_is_true]).
      congruence.
  - left. eexists. split; [reflexivity|]. repeat split. discriminate.
Qed.

Lemma candidate_shift (env : Env) (st st1 : State) (k : nat) :
  nanoids st1 = S (nanoids st) ->
  candidate env st1 k = candidate env st (S k).
Proof.
  intros H. unfold candidate. rewrite H. f_equal. f_equal. lia.
Qed.

Lemma candidate_zero (env : Env) (st : State) :
  candidate env st 0 = toUpperCase (nanoid_out env 6 (nanoids st)).
Proof. unfold candidate. now rewrite Nat.add_0_r. Qed.

(** ** CreateSession: the loop of generateUniqueSessionCode *)

(** One pass of the loop body, as the interpreter sees it. *)
Lemma run_generate_step (cfg : Config) (env : Env) (fuel : nat)
      (code0 : jsstring) (tries : nat) (st : State) :
  tries < 10 ->
  run cfg env
      (KeyIssuing.generateUniqueSessionCode_while (S fuel) code0 false tries) st =
  run cfg env
      (KeyIssuing.generateUniqueSessionCode_while
         fuel (candidate env st 0)
         (negb (is_some (data (fst (exec cfg env
                  (SelectSessionIdByCode (VStr (candidate env st 0)))
                  (List.length (trace st)) (db st))))) &&
          negb (is_some (error (fst (exec cfg env
                  (SelectSessionIdByCode (VStr (candidate env st 0)))
                  (List.length (trace st)) (db st))))))%bool
         (S tries))
      {| db := db st;
         trace := trace st ++ [SelectSessionIdByCode (VStr (candidate env st 0))];
         nanoids := S (nanoids st); keys := keys st; console := console st |}.
Proof.
  intros Ht. apply Nat.ltb_lt in Ht.
  rewrite candidate_zero. simpl. rewrite Ht. simpl.
  pose proof (exec_select_id cfg env (toUpperCase (nanoid_out env 6 (nanoids st)))
                             (List.length (trace st)) (db st)) as [Hd _].
  destruct (exec cfg env _ _ _) as [[dr er] d]. simpl in Hd. subst d. simpl.
  destruct dr, er; reflexivity.
Qed.

(** The loop changes no table; with 10 units of fuel it leaves with its
    condition false; and it leaves with [isUnique] set only for a drawn code
    that a lookup answered "no data, no error" to, which no session carries. *)
Lemma generateUniqueSessionCode_while_exit (cfg : Config) (env : Env) (fuel : nat) :
  forall (code0 : jsstring) (isUnique : bool) (tries : nat) (st : State)
         (code1 : jsstring) (isUnique1 : bool) (tries1 : nat) (st1 : State),
    run cfg env
        (KeyIssuing.generateUniqueSessionCode_while fuel code0 isUnique tries) st =
      ((code1, isUnique1, tries1), st1) ->
    db st1 = db st /\ keys st1 = keys st /\ console st1 = console st /\
    (10 <= fuel + tries -> (negb isUnique1 && (tries1 <? 10))%bool = false) /\
    (isUnique1 = true ->
     (isUnique = true /\ code1 = code0) \/
     (no_rows cfg = None /\
      exists k, code1 = candidate env st k /\
                forall s, In s (sessions (db st)) -> code s <> code1)).
Proof.
  induction fuel as [|fuel IH]; intros code0 isUnique tries st code1 isUnique1 tries1 st1 R.
  - simpl in R. injection R as <- <- <- <-.
    repeat split; auto.
    intros H. assert ((tries <? 10) = false) as -> by (apply Nat.ltb_ge; lia).
    apply andb_false_r.
  - destruct isUnique.
    { simpl in R. injection R as <- <- <- <-. repeat split; auto. }
    destruct (tries <? 10) eqn:Ht.
    2:{ simpl in R. rewrite Ht in R. simpl in R. injection R as <- <- <- <-.
        repeat split; auto. }
    apply Nat.ltb_lt in Ht. rewrite run_generate_step in R by exact Ht.
    match type of R with
    | run _ _ _ ?s = _ => set (stb := s) in R
    end.
    apply IH in R. destruct R as (Hd & Hk & Hc & Hexit & Hu).
    change (db stb) with (db st) in Hd, Hu.
    change (keys stb) with (keys st) in Hk.
    change (console stb) with (console st) in Hc.
    repeat split; auto.
    + intros H. apply Hexit. lia.
    + intros H. right. destruct (Hu H) as [[Hb Hcode]|(Hn & k & Hcode & Hfresh)].
      * pose proof (exec_select_id cfg env (candidate env st 0)
                                   (List.length (trace st)) (db st))
          as (_ & Hnone & _).
        destruct (Hnone Hb) as [Hn Hfresh].
        split; [exact Hn|]. exists 0. subst code1. auto.
      * split; [exact Hn|]. exists (S k).
        rewrite (candidate_shift env st stb k eq_refl) in Hcode. auto.
Qed.

(** More fuel than the loop needs changes nothing: 10 units always do. *)
Lemma generateUniqueSessionCode_while_fuel (cfg : Config) (env : Env) (fuel : nat) :
  forall (fuel' : nat) (code0 : jsstring) (isUnique : bool) (tries : nat) (st : State),
    10 <= fuel + tries -> 10 <= fuel' + tries ->
    run cfg env
        (KeyIssuing.generateUniqueSessionCode_while fuel code0 isUnique tries) st =
    run cfg env
        (KeyIssuing.generateUniqueSessionCode_while fuel' code0 isUnique tries) st.
Proof.
  induction fuel as [|fuel IH]; intros [|fuel'] code0 isUnique tries st H H';
    try reflexivity.
  - simpl in H. simpl.
    assert ((tries <? 10) = false) as -> by (apply Nat.ltb_ge; lia).
    now rewrite andb_false_r.
  - simpl in H'. simpl.
    assert ((tries <? 10) = false) as -> by (apply Nat.ltb_ge; lia).
    now rewrite andb_false_r.
  - simpl. destruct (negb isUnique && (tries <? 10))%bool; [|reflexivity].
    simpl. destruct (exec cfg env _ _ _) as [[dr er] d]. apply IH; lia.
Qed.

Lemma state_eta (st : State) :
  {| db := db st; trace := trace st ++ []; nanoids := nanoids st + 0;
     keys := keys st; console := console st |} = st.
Proof. destruct st; simpl. now rewrite app_nil_r, Nat.add_0_r. Qed.

Lemma map_seq_succ (T : Type) (f : nat -> T) (n : nat) :
  map f (seq 0 (S n)) = f 0 :: map (fun k => f (S k)) (seq 0 n).
Proof. simpl. f_equal. rewrite <- seq_shift. apply map_map. Qed.

(** When every drawn code is carried by a session, the loop makes its 10
    lookups, one per draw, and leaves with [isUnique] unset. *)
Lemma generateUniqueSessionCode_while_exhausted (cfg : Config) (env : Env) (fuel : nat) :
  forall (code0 : jsstring) (tries : nat) (st : State),
    fuel + tries = 10 ->
    (forall k, k < fuel ->
               exists s, In s (sessions (db st)) /\ code s = candidate env st k) ->
    exists code1,
      run cfg env
          (KeyIssuing.generateUniqueSessionCode_while fuel code0 false tries) st =
      ((code1, false, 10),
       {| db := db st;
          trace := trace st ++
                   map (fun k => SelectSessionIdByCode (VStr (candidate env st k)))
                       (seq 0 fuel);
          nanoids := nanoids st + fuel; keys := keys st; console := console st |}).
Proof.
  induction fuel as [|fuel IH]; intros code0 tries st Hsum Hcol.
  - exists code0. simpl in Hsum. subst tries. simpl. now rewrite state_eta.
  - rewrite run_generate_step by lia.
    pose proof (exec_select_id cfg env (candidate env st 0)
                               (List.length (trace st)) (db st)) as (_ & _ & Hsome).
    rewrite (Hsome (Hcol 0 (Nat.lt_0_succ _))).
    edestruct (IH (candidate env st 0) (S tries)) as [code1 Hrun];
      [lia | | exists code1; rewrite Hrun].
    + intros k Hk. cbn [db].
      match goal with
      | |- context [candidate env ?s k] =>
        rewrite (candidate_shift env st s k eq_refl)
      end.
      apply Hcol. lia.
    + cbn [db trace nanoids keys console].
      rewrite map_seq_succ, <- app_assoc. simpl app.
      f_equal. f_equal; [|lia].
      f_equal. f_equal. apply map_ext. intros k.
      match goal with
      | |- context [candidate env ?s k] =>
        rewrite (candidate_shift env st s k eq_refl)
      end.
      reflexivity.
Qed.

(** ** CreateSession: the loop of the device-roster variant *)

(** One pass of the loop body, as the interpreter sees it. *)
Lemma run_create_step (cfg : Config) (env : Env) (fuel tries : nat) (st : State) :
  tries < 5 ->
  run cfg env (DeviceRoster.create_session_while (S fuel) tries) st =
  let c := candidate env st 0 in
  let rd := exec cfg env (InsertSession c None) (List.length (trace st)) (db st) in
  let stb := {| db := snd rd; trace := trace st ++ [InsertSession c None];
                nanoids := S (nanoids st); keys := keys st;
                console := console st |} in
  match error (fst rd) with
  | None =>
    match data (fst rd) with
    | Some d =>
      (DeviceRoster.Returned
         (Reply 200 [("sessionId", VStr (id d)); ("code", VStr c)]%string), stb)
    | None => (DeviceRoster.Returned (Unanswered TypeError), stb)
    end
  | Some e =>
    if negb (str_eqb (err_code e) (js "23505")) then
      (DeviceRoster.Returned
         (Reply 500 [("error", VStr (js "Failed to create session"))]%string), stb)
    else run cfg env (DeviceRoster.create_session_while fuel (S tries)) stb
  end.
Proof.
  intros Ht. apply Nat.ltb_lt in Ht.
  rewrite candidate_zero. simpl. rewrite Ht. simpl.
  destruct (exec cfg env _ _ _) as [[dr er] d]. simpl.
  destruct er as [e|]; [|destruct dr; reflexivity].
  destruct (negb (str_eqb (err_code e) (js "23505"))); reflexivity.
Qed.

(** The loop leaves by a 200 with exactly one session appended, whose code is
    a drawn one (and, under the uniqueness constraint, one no session had);
    or by a 500 with the tables unchanged; or it falls through, with the
    tables unchanged and, given 5 units of fuel, with its condition false. *)
Lemma create_session_while_exit (cfg : Config) (env : Env) (fuel : nat) :
  forall (tries : nat) (st : State) (x : DeviceRoster.LoopExit) (st' : State),
    run cfg env (DeviceRoster.create_session_while fuel tries) st = (x, st') ->
    match x with
    | DeviceRoster.FellThrough t =>
      db st' = db st /\ (5 <= fuel + tries -> (t <? 5) = false)
    | DeviceRoster.Returned o =>
      (exists k row,
          o = Reply 200 [("sessionId", VStr (id row));
                         ("code", VStr (candidate env st k))]%string /\
          code row = candidate env st k /\
          sessions (db st') = sessions (db st) ++ [row] /\
          clipboard_items (db st') = clipboard_items (db st) /\
          (unique_code cfg = true ->
           forall s, In s (sessions (db st)) -> code s <> code row)) \/
      (o = Reply 500 [("error", VStr (js "Failed to create session"))]%string /\
       db st' = db st)
    end.
Proof.
  induction fuel as [|fuel IH]; intros tries st x st' R.
  - simpl in R. injection R as <- <-. split; [reflexivity|].
    intros H. apply Nat.ltb_ge. lia.
  - destruct (tries <? 5) eqn:Ht.
    2:{ simpl in R. rewrite Ht in R. injection R as <- <-.
        split; [reflexivity|]. intros _. exact Ht. }
    apply Nat.ltb_lt in Ht. rewrite run_create_step in R by exact Ht.
    cbv zeta in R.
    destruct (exec_insert_session cfg env (candidate env st 0) None
                                  (List.length (trace st)) (db st))
      as [(row & E & Hc & _ & Hu)|(e & E & _)]; rewrite E in R; simpl in R.
    + injection R as <- <-. left. exists 0, row. simpl.
      rewrite Hc. repeat split; auto.
    + destruct (negb (str_eqb (err_code e) (js "23505"))).
      * injection R as <- <-. right. split; reflexivity.
      * match type of R with
        | run _ _ _ ?s = _ => set (stb := s) in R
        end.
        apply IH in R. destruct x as [o|t].
        -- destruct R as [(k & row & Ho & Hc & Hs & Hi & Hu)|[Ho Hd]].
           ++ left. exists (S k), row.
              rewrite (candidate_shift env st stb k eq_refl) in Ho, Hc.
              repeat split; auto.
           ++ right. split; [exact Ho | exact Hd].
        -- destruct R as [Hd Hexit]. split; [exact Hd|].
           intros H. apply Hexit. lia.
Qed.

(** More fuel than the loop needs changes nothing: 5 units always do. *)
Lemma create_session_while_fuel (cfg : Config) (env : Env) (fuel : nat) :
  forall (fuel' tries : nat) (st : State),
    5 <= fuel + tries -> 5 <= fuel' + tries ->
    run cfg env (DeviceRoster.create_session_while fuel tries) st =
    run cfg env (DeviceRoster.create_session_while fuel' tries) st.
Proof.
  induction fuel as [|fuel IH]; intros [|fuel'] tries st H H'; try reflexivity.
  - simpl in H. simpl.
    assert ((tries <? 5) = false) as -> by (apply Nat.ltb_ge; lia). reflexivity.
  - simpl in H'. simpl.
    assert ((tries <? 5) = false) as -> by (apply Nat.ltb_ge; lia). reflexivity.
  - simpl. destruct (tries <? 5); [|reflexivity].
    simpl. destruct (exec cfg env _ _ _) as [[dr er] d].
    destruct er as [e|]; simpl; [|destruct dr; reflexivity].
    destruct (negb (str_eqb (err_code e) (js "23505"))); [reflexivity|].
    apply IH; lia.
Qed.

(** Under the uniqueness constraint, when every drawn code is carried by a
    session and no call fails for another reason than a uniqueness
    violation, the loop makes its 5 inserts, one per draw, and falls
    through. *)
Lemma create_session_while_exhausted (cfg : Config) (env : Env) (fuel : nat) :
  forall (tries : nat) (st : State),
    fuel + tries = 5 ->
    unique_code cfg = true ->
    (forall k, k < fuel ->
               exists s, In s (sessions (db st)) /\ code s = candidate env st k) ->
    (forall k e, k < fuel -> fault env (List.length (trace st) + k) = Some e ->
                 err_code e = js "23505") ->
    run cfg env (DeviceRoster.create_session_while fuel tries) st =
    (DeviceRoster.FellThrough 5,
     {| db := db st;
        trace := trace st ++
                 map (fun k => InsertSession (candidate env st k) None) (seq 0 fuel);
        nanoids := nanoids st + fuel; keys := keys st; console := console st |}).
Proof.
  induction fuel as [|fuel IH]; intros tries st Hsum U Hcol Hfault.
  - simpl in Hsum. subst tries. simpl. now rewrite state_eta.
  - rewrite run_create_step by lia. cbv zeta.
    assert (exists e,
               exec cfg env (InsertSession (candidate env st 0) None)
                    (List.length (trace st)) (db st) = (failed Session e, db st) /\
               err_code e = js "23505") as (e & E & Hcode).
    { destruct (exec_insert_session cfg env (candidate env st 0) None
                                    (List.length (trace st)) (db st))
        as [(row & _ & _ & _ & Hu)|(e & E & He)].
      - destruct (Hcol 0 (Nat.lt_0_succ _)) as (s & Hs & Hc).
        exfalso. exact (Hu U s Hs Hc).
      - exists e. split; [exact E|].
        destruct He as [He|(_ & -> & _)]; [|reflexivity].
        apply (Hfault 0 e (Nat.lt_0_succ _)). now rewrite Nat.add_0_r. }
    rewrite E. cbn [fst snd failed error]. rewrite Hcode.
    change (negb (str_eqb (js "23505") (js "23505"))) with false. cbv iota.
    rewrite IH; [| lia | exact U | |].
    + cbn [db trace nanoids keys console].
      rewrite map_seq_succ, <- app_assoc. simpl app.
      f_equal. f_equal; [|lia].
      f_equal. f_equal. apply map_ext. intros k.
      match goal with
      | |- context [candidate env ?s k] =>
        rewrite (candidate_shift env st s k eq_refl)
      end.
      reflexivity.
    + intros k Hk. cbn [db].
      match goal with
      | |- context [candidate env ?s k] =>
        rewrite (candidate_shift env st s k eq_refl)
      end.
      apply Hcol. lia.
    + intros k e' Hk. cbn [trace]. rewrite length_app, Nat.add_1_r.
      intros H. apply (Hfault (S k) e'); [lia|].
      now rewrite Nat.add_succ_r.
Qed.

(** ** CreateSession: outcomes *)

Lemma alphabet_upper (c : code_unit) :
  in_alphabet c = true -> code_symbol (upper_unit c) = true.
Proof.
  intros H. apply existsb_exists in H as (x & Hx & E).
  apply N.eqb_eq in E. subst x.
  assert (forallb (fun u => code_symbol (upper_unit u)) urlAlphabet = true) as A
      by (vm_compute; reflexivity).
  rewrite forallb_forall in A. now apply A.
Qed.

Lemma forallb_firstn (T : Type) (f : T -> bool) (n : nat) (l : list T) :
  forallb f l = true -> forallb f (firstn n l) = true.
Proof.
  revert l. induction n as [|n IH]; intros [|x l] H; simpl; try reflexivity.
  simpl in H. apply andb_true_iff in H as [Hx Hl].
  now rewrite Hx, IH.
Qed.

Lemma forallb_repeat (T : Type) (f : T -> bool) (a : T) (n : nat) :
  f a = true -> forallb f (repeat a n) = true.
Proof. intros H. induction n as [|n IH]; simpl; [reflexivity | now rewrite H]. Qed.

(** The draws of the concrete runs honour the size asked for. *)
Lemma draw_output (size : nat) (s : jsstring) :
  forallb in_alphabet s = true -> nanoid_output size (Scenario.draw size s).
Proof.
  intros H. unfold Scenario.draw. split.
  - rewrite length_app, length_firstn, repeat_length. lia.
  - rewrite forallb_app, forallb_firstn by exact H.
    now rewrite forallb_repeat.
Qed.

(** A code drawn by [nanoid(6)] has 6 symbols, each of [A-Z], [0-9], [_] or
    [-]. *)
Lemma candidate_shape (env : Env) (st : State) (k : nat) :
  (forall n, nanoid_output 6 (nanoid_out env 6 n)) ->
  List.length (candidate env st k) = 6 /\
  forallb code_symbol (candidate env st k) = true.
Proof.
  intros H. destruct (H (nanoids st + k)) as [Hl Ha].
  unfold candidate, toUpperCase. rewrite length_map. split; [exact Hl|].
  apply forallb_forall. intros x Hx.
  apply in_map_iff in Hx as (u & <- & Hu).
  rewrite forallb_forall in Ha. apply alphabet_upper. now apply Ha.
Qed.

(** [generateUniqueSessionCode] changes no table; it throws its own error or
    returns a drawn code that a lookup found no session for. *)
Lemma run_generateUniqueSessionCode (cfg : Config) (env : Env) (st : State)
      (r : Thrown + jsstring) (st1 : State) :
  run cfg env KeyIssuing.generateUniqueSessionCode st = (r, st1) ->
  db st1 = db st /\ console st1 = console st /\
  match r with
  | inl e => e = JsError "Failed to generate unique code"
  | inr c =>
    no_rows cfg = None /\
    exists k, c = candidate env st k /\
              forall s, In s (sessions (db st)) -> code s <> c
  end.
Proof.
  unfold KeyIssuing.generateUniqueSessionCode. rewrite run_bind.
  destruct (run cfg env (KeyIssuing.generateUniqueSessionCode_while 10 _ _ _) st)
    as [[[c u] t] st2] eqn:W.
  apply generateUniqueSessionCode_while_exit in W as (Hd & _ & Hc & _ & Hu).
  destruct u; simpl; intros R; injection R as <- <-;
    (split; [exact Hd|]); (split; [exact Hc|]); [|reflexivity].
  destruct (Hu eq_refl) as [[H _]|H]; [discriminate | exact H].
Qed.

(** The replies of [CreateSession], variant by variant: a 200 comes with
    exactly one session appended, whose code is the replied one, drawn from
    [nanoid]; every other reply is a 500 that leaves the tables alone. *)
Lemma create_session_outcome (v : Variant) (cfg : Config) (env : Env)
      (st : State) (out : Outcome) (st' : State) :
  run cfg env (create_session v) st = (out, st') ->
  (exists k row body,
      out = Reply 200 body /\
      field "code" body = Some (VStr (candidate env st k)) /\
      code row = candidate env st k /\
      sessions (db st') = sessions (db st) ++ [row] /\
      clipboard_items (db st') = clipboard_items (db st) /\
      (v = KeyIssuingVariant \/ unique_code cfg = true ->
       forall s, In s (sessions (db st)) -> code s <> code row)) \/
  (status_of out = Some 500 /\ db st' = db st).
Proof.
  destruct v; unfold create_session.
  - unfold KeyIssuing.create_session, KeyIssuing.create_session_try.
    rewrite !run_bind.
    destruct (run cfg env KeyIssuing.generateUniqueSessionCode st)
      as [[e|c] st1] eqn:G;
      apply run_generateUniqueSessionCode in G as (Hd & _ & G).
    + simpl. intros R. injection R as <- <-. right. simpl. auto.
    + destruct G as (_ & k & -> & Hfresh). simpl.
      destruct (exec_insert_session cfg env (candidate env st k)
                  (Some (key_out env (keys st1))) (List.length (trace st1)) (db st1))
        as [(row & E & Hc & _ & _)|(e & E & _)]; rewrite E; simpl;
        intros R; injection R as <- <-.
      * left. exists k, row. eexists. split; [reflexivity|]. simpl.
        rewrite Hd, Hc. repeat split; auto.
      * right. simpl. auto.
  - unfold DeviceRoster.create_session. rewrite run_bind.
    destruct (run cfg env (DeviceRoster.create_session_while 5 0) st)
      as [[o|t] st1] eqn:W; apply create_session_while_exit in W; simpl;
      intros R; injection R as <- <-.
    + destruct W as [(k & row & -> & Hc & Hs & Hi & Hu)|[-> Hd]].
      * left. exists k, row. eexists. split; [reflexivity|]. simpl.
        repeat split; auto.
        intros [H|H]; [discriminate | now apply Hu].
      * right. simpl. auto.
    + right. simpl. destruct W as [Hd _]. auto.
Qed.

(** C1, as the code has it.  On a [nanoid] that returns as many symbols of
    its alphabet as it is asked for (and, for the device-roster variant, a
    store with the uniqueness constraint on [code]), every [CreateSession]
    that replies 200 replies with a code of 6 symbols, the size the handler
    asks [nanoid] for, each of [A-Z], [0-9], [_] or [-], that no session live
    before the call carries; the one session the call adds is the only
    holder of that code. *)
Theorem create_session_code_is_fresh :
  forall (v : Variant) (cfg : Config) (env : Env) (st : State)
         (body : list (string * value)) (st' : State),
    nanoid_contract env ->
    (v = DeviceRosterVariant -> unique_code cfg = true) ->
    run cfg env (create_session v) st = (Reply 200 body, st') ->
    exists c row,
      field "code" body = Some (VStr c) /\
      List.length c = 6 /\
      forallb code_symbol c = true /\
      (forall s, In s (sessions (db st)) -> code s <> c) /\
      sessions (db st') = sessions (db st) ++ [row] /\
      code row = c.
Proof.
  intros v cfg env st body st' Hn Hu R.
  destruct (create_session_outcome v cfg env st _ st' R)
    as [(k & row & body' & Hb & Hf & Hc & Hs & _ & Hfresh)|[H _]];
    [|discriminate].
  injection Hb as <-.
  destruct (candidate_shape env st k (Hn 6)) as [Hl Hsym].
  exists (candidate env st k), row. repeat split; auto.
  rewrite <- Hc. apply Hfresh.
  destruct v; [now left | right; now apply Hu].
Qed.

Lemma create_session_code_is_fresh_witness :
  (exists c row,
      field "code" [("sessionId", VStr (js "session-0")); ("code", VStr (js "ZZ99ZZ"))]%string
        = Some (VStr c) /\
      List.length c = 6 /\
      forallb code_symbol c = true /\
      (forall s, In s (sessions (db (Scenario.start Scenario.one_session))) ->
                 code s <> c) /\
      sessions (db (snd (run Scenario.strict (Scenario.calm "zz99zz")
                             (create_session DeviceRosterVariant)
                             (Scenario.start Scenario.one_session)))) =
        sessions (db (Scenario.start Scenario.one_session)) ++ [row] /\
      code row = c) /\
  (exists c row,
      field "code" [("sessionId", VStr (js "session-1")); ("code", VStr (js "ZZ99ZZ"));
                    ("aesKey", VStr (js "k1"))]%string
        = Some (VStr c) /\
      List.length c = 6 /\
      forallb code_symbol c = true /\
      (forall s, In s (sessions (db (Scenario.start Scenario.one_session))) ->
                 code s <> c) /\
      sessions (db (snd (run Scenario.lenient (Scenario.calm "zz99zz")
                             (create_session KeyIssuingVariant)
                             (Scenario.start Scenario.one_session)))) =
        sessions (db (Scenario.start Scenario.one_session)) ++ [row] /\
      code row = c).
Proof.
  assert (nanoid_contract (Scenario.calm "zz99zz")) as Hn.
  { intros size n. apply draw_output. reflexivity. }
  split.
  - apply (create_session_code_is_fresh
             DeviceRosterVariant Scenario.strict (Scenario.calm "zz99zz")
             (Scenario.start Scenario.one_session) _ _ Hn (fun _ => eq_refl)).
    vm_compute. reflexivity.
  - apply (create_session_code_is_fresh
             KeyIssuingVariant Scenario.lenient (Scenario.calm "zz99zz")
             (Scenario.start Scenario.one_session) _ _ Hn (fun _ => eq_refl)).
    vm_compute. reflexivity.
Defined.

(** C1 as stated fails on the alphabet: [nanoid] draws from [A-Za-z0-9_-],
    so a draw such as [ab_-12] makes [CreateSession] reply 200 with the code
    [AB_-12], which is not alphanumeric. *)
Lemma create_session_code_counterexample :
  nanoid_contract (Scenario.calm "ab_-12") /\
  nanoid_output 6 (js "ab_-12") /\
  fst (run Scenario.strict (Scenario.calm "ab_-12")
           (create_session DeviceRosterVariant)
           (Scenario.start Scenario.empty_db)) =
    Reply 200 [("sessionId", VStr (js "session-0"));
               ("code", VStr (js "AB_-12"))]%string /\
  forallb upper_alnum (js "AB_-12") = false.
Proof.
  split; [intros size n; apply draw_output; reflexivity|].
  repeat split; vm_compute; reflexivity.
Qed.

(** On a store whose [.single()] reports an error when no row matches, no
    lookup of [generateUniqueSessionCode] answers "no data, no error", so the
    key-issuing [CreateSession] never replies 200. *)
Lemma create_session_key_issuing_strict_single (cfg : Config) (env : Env)
      (st : State) (e : StorageError) :
  no_rows cfg = Some e ->
  status_of (fst (run cfg env (create_session KeyIssuingVariant) st)) = Some 500.
Proof.
  intros Hn. unfold create_session, KeyIssuing.create_session,
               KeyIssuing.create_session_try.
  rewrite !run_bind.
  destruct (run cfg env KeyIssuing.generateUniqueSessionCode st)
    as [[t|c] st1] eqn:G.
  - reflexivity.
  - apply run_generateUniqueSessionCode in G as (_ & _ & H & _). congruence.
Qed.

(** C2. When every code [CreateSession] draws is carried by a live session
    (and, in the device-roster variant, the store enforces the uniqueness of
    [code] and no call fails for another reason), the call makes exactly its
    bound of attempts, 10 lookups in the key-issuing and 5 inserts in the
    device-roster variant, one per draw, then replies 500 (after
    [generateUniqueSessionCode] threw "Failed to generate unique code",
    respectively with "Code generation failed"), and the tables are as
    before.  In every run, a 200 reply comes with exactly one session
    appended, and any other reply with the tables unchanged. *)
Theorem create_session_exhaustion_and_persistence :
  forall (v : Variant) (cfg : Config) (env : Env) (st : State)
         (out : Outcome) (st' : State),
    run cfg env (create_session v) st = (out, st') ->
    ((forall k, k < attempts v ->
                exists s, In s (sessions (db st)) /\ code s = candidate env st k) ->
     (v = DeviceRosterVariant ->
      unique_code cfg = true /\
      forall k e, k < 5 -> fault env (List.length (trace st) + k) = Some e ->
                  err_code e = js "23505") ->
     out = exhausted_reply v /\
     db st' = db st /\
     nanoids st' = nanoids st + attempts v /\
     trace st' =
       trace st ++ map (fun k => attempt_query v (candidate env st k))
                       (seq 0 (attempts v)) /\
     (v = KeyIssuingVariant ->
      fst (run cfg env KeyIssuing.generateUniqueSessionCode st) =
        inl (JsError "Failed to generate unique code"))) /\
    (status_of out = Some 200 ->
     exists row,
       sessions (db st') = sessions (db st) ++ [row] /\
       clipboard_items (db st') = clipboard_items (db st)) /\
    (status_of out <> Some 200 -> db st' = db st).
Proof.
  intros v cfg env st out st' R. split; [|split].
  - intros Hcol Hstore. destruct v; unfold create_session in R.
    + destruct (generateUniqueSessionCode_while_exhausted
                  cfg env 10 (js "") 0 st eq_refl Hcol) as [code1 W].
      assert (run cfg env KeyIssuing.generateUniqueSessionCode st =
              (inl (JsError "Failed to generate unique code"),
               {| db := db st;
                  trace := trace st ++
                           map (fun k => SelectSessionIdByCode (VStr (candidate env st k)))
                               (seq 0 10);
                  nanoids := nanoids st + 10; keys := keys st;
                  console := console st |})) as G.
      { unfold KeyIssuing.generateUniqueSessionCode. rewrite run_bind, W.
        reflexivity. }
      unfold KeyIssuing.create_session, KeyIssuing.create_session_try in R.
      rewrite !run_bind, G in R. simpl in R. injection R as <- <-.
      rewrite G. repeat split.
    + destruct (Hstore eq_refl) as [U Hf].
      unfold DeviceRoster.create_session in R.
      rewrite run_bind,
        (create_session_while_exhausted cfg env 5 0 st eq_refl U Hcol) in R.
      * simpl in R. injection R as <- <-. repeat split. discriminate.
      * intros k e Hk. now apply Hf.
  - intros H200.
    destruct (create_session_outcome v cfg env st out st' R)
      as [(k & row & body & _ & _ & _ & Hs & Hi & _)|[H500 _]].
    + exists row. auto.
    + congruence.
  - intros Hnot.
    destruct (create_session_outcome v cfg env st out st' R)
      as [(k & row & body & -> & _)|[_ Hd]].
    + now contradiction Hnot.
    + exact Hd.
Qed.

Lemma create_session_exhaustion_witness :
  (fst (run Scenario.strict (Scenario.calm "ab12cd")
            (create_session DeviceRosterVariant)
            (Scenario.start Scenario.one_session)) =
     exhausted_reply DeviceRosterVariant /\
   db (snd (run Scenario.strict (Scenario.calm "ab12cd")
                (create_session DeviceRosterVariant)
                (Scenario.start Scenario.one_session))) = Scenario.one_session) /\
  (fst (run Scenario.strict (Scenario.calm "ab12cd")
            (create_session KeyIssuingVariant)
            (Scenario.start Scenario.one_session)) =
     exhausted_reply KeyIssuingVariant /\
   List.length
     (trace (snd (run Scenario.strict (Scenario.calm "ab12cd")
                      (create_session KeyIssuingVariant)
                      (Scenario.start Scenario.one_session)))) = 10) /\
  (exists row,
      sessions (db (snd (run Scenario.lenient (Scenario.calm "zz99zz")
                             (create_session KeyIssuingVariant)
                             (Scenario.start Scenario.one_session)))) =
      [Scenario.ab12cd] ++ [row]).
Proof.
  assert (forall v k, k < attempts v ->
            exists s, In s (sessions (db (Scenario.start Scenario.one_session))) /\
                      code s = candidate (Scenario.calm "ab12cd")
                                         (Scenario.start Scenario.one_session) k)
    as Hcol.
  { intros v k _. exists Scenario.ab12cd. split; [now left | reflexivity]. }
  assert (unique_code Scenario.strict = true /\
          forall k e, k < 5 ->
            fault (Scenario.calm "ab12cd")
                  (List.length (trace (Scenario.start Scenario.one_session)) + k) = Some e ->
            err_code e = js "23505") as Hstore.
  { split; [reflexivity|]. intros k e _ H. discriminate H. }
  split; [|split].
  - destruct (create_session_exhaustion_and_persistence
                DeviceRosterVariant Scenario.strict (Scenario.calm "ab12cd")
                (Scenario.start Scenario.one_session) _ _ (surjective_pairing _))
      as (Hex & _ & _).
    destruct (Hex (Hcol DeviceRosterVariant) (fun _ => Hstore)) as (Ho & Hd & _).
    split; [exact Ho | exact Hd].
  - destruct (create_session_exhaustion_and_persistence
                KeyIssuingVariant Scenario.strict (Scenario.calm "ab12cd")
                (Scenario.start Scenario.one_session) _ _ (surjective_pairing _))
      as (Hex & _ & _).
    destruct (Hex (Hcol KeyIssuingVariant) (fun _ => Hstore)) as (Ho & _ & _ & Ht & _).
    split; [exact Ho | rewrite Ht; reflexivity].
  - destruct (create_session_exhaustion_and_persistence
                KeyIssuingVariant Scenario.lenient (Scenario.calm "zz99zz")
                (Scenario.start Scenario.one_session) _ _ (surjective_pairing _))
      as (_ & Hok & _).
    destruct (Hok eq_refl) as (row & Hrow & _).
    exists row. exact Hrow.
Defined.

(** ** The scenario of the specification *)

(** Device-roster variant, on an empty store: create a session (code
    [AB12CD]); join with [AB12CD]; a join with [ZZ99ZZ] is answered 404; sync
    [hello], then [world]; latest replies [world]. *)
Example scenario_create_join_sync_latest :
  let env := Scenario.calm "ab12cd" in
  let '(o1, s1) := run Scenario.strict env (create_session DeviceRosterVariant)
                       (Scenario.start Scenario.empty_db) in
  let '(o2, s2) := run Scenario.strict env
                       (join_session DeviceRosterVariant (VStr (js "AB12CD"))
                                     (VStr (js "phone"))) s1 in
  let '(o3, s3) := run Scenario.strict env
                       (join_session DeviceRosterVariant (VStr (js "ZZ99ZZ"))
                                     VUndefined) s2 in
  let '(o4, s4) := run Scenario.strict env
                       (sync DeviceRosterVariant (VStr (js "session-0"))
                             (VStr (js "hello")) (VStr (js "phone"))) s3 in
  let '(o5, s5) := run Scenario.strict env
                       (sync DeviceRosterVariant (VStr (js "session-0"))
                             (VStr (js "world")) (VStr (js "phone"))) s4 in
  let '(o6, _) := run Scenario.strict env
                      (latest DeviceRosterVariant (js "session-0")) s5 in
  o1 = Reply 200 [("sessionId", VStr (js "session-0"));
                  ("code", VStr (js "AB12CD"))]%string /\
  o2 = Reply 200 [("sessionId", VStr (js "session-0"))]%string /\
  status_of o3 = Some 404 /\
  status_of o4 = Some 200 /\ status_of o5 = Some 200 /\
  reply_content DeviceRosterVariant o6 = Some (VStr (js "world")) /\
  map device_ids (sessions (db s5)) = [Some [js "phone"]].
Proof. vm_compute. repeat split. Qed.

(** * Beyond the claims *)

(** Case analysis on the fault oracle at the call the goal mentions. *)
Ltac case_fault :=
  match goal with
  | |- context [fault ?e ?n] => destruct (fault e n)
  end.

(** ** Guards *)

(** X1. [EndSession] with a missing or falsy [sessionId] (undefined, null,
    false, 0, the empty string) replies 400 "Missing sessionId"; the handler
    is then a bare return: no call of the store, state untouched. *)
Theorem end_session_missing_id :
  forall (cfg : Config) (env : Env) (sessionId : value) (st : State),
    truthy sessionId = false ->
    KeyIssuing.end_session sessionId =
      Ret (Reply 400 [("error", VStr (js "Missing sessionId"))]%string) /\
    run cfg env (KeyIssuing.end_session sessionId) st =
      (Reply 400 [("error", VStr (js "Missing sessionId"))]%string, st).
Proof.
  intros cfg env sessionId st H.
  unfold KeyIssuing.end_session. rewrite H. split; reflexivity.
Qed.

Lemma end_session_missing_id_witness :
  truthy (VStr (js "")) = false /\
  run Scenario.strict (Scenario.calm "abcdef")
      (KeyIssuing.end_session (VStr (js "")))
      (Scenario.start Scenario.one_session) =
  (Reply 400 [("error", VStr (js "Missing sessionId"))]%string,
   Scenario.start Scenario.one_session).
Proof.
  split; [reflexivity|].
  apply (end_session_missing_id Scenario.strict (Scenario.calm "abcdef")
                                (VStr (js "")) (Scenario.start Scenario.one_session)
                                eq_refl).
Defined.

(** X2. [GET /latest] of the device-roster variant with a [sessionId] query
    parameter that is not a string (absent, or repeated and so parsed to an
    array) replies 400 "Missing sessionId" without calling the store; a
    string, even the empty one, passes the guard and is looked up. *)
Theorem latest_query_guard :
  forall (cfg : Config) (env : Env) (sessionId : value) (st : State)
         (out : Outcome) (st' : State),
    run cfg env (DeviceRoster.latest sessionId) st = (out, st') ->
    (is_string sessionId = false ->
     out = Reply 400 [("error", VStr (js "Missing sessionId"))]%string /\ st' = st) /\
    (is_string sessionId = true ->
     trace st' = trace st ++ [LatestItem sessionId] /\ status_of out <> Some 400).
Proof.
  intros cfg env sessionId st out st' R. unfold DeviceRoster.latest in R.
  destruct (is_string sessionId); simpl in R.
  - split; [discriminate|]. intros _.
    unfold exec in R. destruct (fault env (List.length (trace st))); simpl in R.
    + injection R as <- <-. split; [reflexivity | discriminate].
    + destruct (single cfg _) as [[d|] [e|]]; simpl in R;
        injection R as <- <-; (split; [reflexivity | discriminate]).
  - split; [|discriminate]. intros _. injection R as <- <-. split; reflexivity.
Qed.

Lemma latest_query_guard_witness :
  fst (run Scenario.strict (Scenario.calm "abcdef")
           (DeviceRoster.latest VUndefined)
           (Scenario.start Scenario.one_session)) =
    Reply 400 [("error", VStr (js "Missing sessionId"))]%string /\
  status_of (fst (run Scenario.strict (Scenario.calm "abcdef")
                      (DeviceRoster.latest (VStr (js "")))
                      (Scenario.start Scenario.one_session))) <> Some 400.
Proof.
  split.
  - apply (latest_query_guard Scenario.strict (Scenario.calm "abcdef") VUndefined
                              (Scenario.start Scenario.one_session) _ _
                              (surjective_pairing _)).
    reflexivity.
  - apply (latest_query_guard Scenario.strict (Scenario.calm "abcdef")
                              (VStr (js ""))
                              (Scenario.start Scenario.one_session) _ _
                              (surjective_pairing _)).
    reflexivity.
Defined.

(** ** JoinSession *)

(** A join by a code exactly one session carries, the lookup answering:
    the 200 reply of that row; no draw, no log line; the items untouched. *)
Lemma run_join_known (v : Variant) (cfg : Config) (env : Env) (c : jsstring)
      (deviceId : value) (row : Session) (st : State) :
  List.length c = 6 ->
  filter (code_is (VStr c)) (sessions (db st)) = [row] ->
  fault env (List.length (trace st)) = None ->
  exists st',
    run cfg env (join_session v (VStr c) deviceId) st = (join_reply v row, st') /\
    keys st' = keys st /\ nanoids st' = nanoids st /\ console st' = console st /\
    clipboard_items (db st') = clipboard_items (db st) /\
    (v = KeyIssuingVariant ->
     db st' = db st /\ trace st' = trace st ++ [SelectSessionByCode (VStr c)]).
Proof.
  intros L Hrow F. destruct v; unfold join_session.
  - unfold KeyIssuing.join_session. simpl. rewrite L. simpl.
    unfold exec. rewrite F. simpl. rewrite Hrow. simpl.
    eexists. split; [reflexivity|]. simpl. repeat split.
  - unfold DeviceRoster.join_session. simpl. rewrite L. simpl.
    unfold exec at 1. rewrite F. simpl. rewrite Hrow. simpl.
    rewrite run_bind.
    match goal with
    | |- context [run cfg env ?p ?s] =>
      destruct (run_roster_update cfg env row deviceId s)
        as [Hp|(dev & Hd & Hne & Hni & Hp)];
        cbv zeta in Hp;
        match type of Hp with
        | _ = ?x => replace (run cfg env p s) with x by (symmetry; exact Hp)
        end
    end.
    + eexists. split; [reflexivity|]. simpl. repeat split; discriminate.
    + eexists. split; [reflexivity|]. simpl. repeat split; try discriminate.
      unfold exec.
      match goal with
      | |- context [fault env ?n] => destruct (fault env n); reflexivity
      end.
Qed.

(** X3. [JoinSession] by a 6-character code that exactly one live session
    carries, the lookup answering, replies 200 with the id of that session
    and, in the key-issuing variant, the key stored on it: no key is drawn,
    nothing is logged, and the key-issuing variant changes no table. *)
Theorem join_session_known_code :
  forall (v : Variant) (cfg : Config) (env : Env) (c : jsstring)
         (deviceId : value) (row : Session) (st : State)
         (out : Outcome) (st' : State),
    List.length c = 6 ->
    filter (code_is (VStr c)) (sessions (db st)) = [row] ->
    fault env (List.length (trace st)) = None ->
    run cfg env (join_session v (VStr c) deviceId) st = (out, st') ->
    out = join_reply v row /\
    keys st' = keys st /\ console st' = console st /\
    clipboard_items (db st') = clipboard_items (db st) /\
    (v = KeyIssuingVariant -> db st' = db st).
Proof.
  intros v cfg env c deviceId row st out st' L Hrow F R.
  destruct (run_join_known v cfg env c deviceId row st L Hrow F)
    as (st1 & R1 & Hk & _ & Hc & Hi & HA).
  rewrite R1 in R. injection R as <- <-.
  repeat split; auto. intros Hv. now apply HA.
Qed.

Lemma join_session_known_code_witness :
  fst (run Scenario.strict (Scenario.calm "abcdef")
           (join_session KeyIssuingVariant (VStr (js "AB12CD")) VUndefined)
           (Scenario.start Scenario.one_session)) =
  Reply 200 [("sessionId", VStr (js "s1")); ("aesKey", VStr (js "k1"))]%string.
Proof.
  apply (join_session_known_code
           KeyIssuingVariant Scenario.strict (Scenario.calm "abcdef")
           (js "AB12CD") VUndefined Scenario.ab12cd
           (Scenario.start Scenario.one_session) _ _
           eq_refl eq_refl eq_refl (surjective_pairing _)).
Defined.

(** X4. When the lookup of [JoinSession] fails in the store, the reply is 404
    "Session not found", in both variants and whether or not a session
    carries the code: a storage failure is not told apart from an unknown
    code.  No table changes. *)
Theorem join_session_lookup_failure_is_not_found :
  forall (v : Variant) (cfg : Config) (env : Env) (c : jsstring)
         (deviceId : value) (e : StorageError) (st : State),
    List.length c = 6 ->
    fault env (List.length (trace st)) = Some e ->
    run cfg env (join_session v (VStr c) deviceId) st =
      (Reply 404 [("error", VStr (js "Session not found"))]%string,
       {| db := db st; trace := trace st ++ [SelectSessionByCode (VStr c)];
          nanoids := nanoids st; keys := keys st; console := console st |}).
Proof.
  intros v cfg env c deviceId e st L F.
  destruct v; simpl;
    [unfold KeyIssuing.join_session | unfold DeviceRoster.join_session];
    simpl; rewrite L; simpl; unfold exec; rewrite F; reflexivity.
Qed.

Lemma join_session_lookup_failure_witness :
  fst (run Scenario.strict (Scenario.failing "abcdef" 0)
           (join_session DeviceRosterVariant (VStr (js "AB12CD")) (VStr (js "laptop")))
           (Scenario.start Scenario.one_session)) =
    Reply 404 [("error", VStr (js "Session not found"))]%string /\
  exists s, In s (sessions (db (Scenario.start Scenario.one_session))) /\
            code s = js "AB12CD".
Proof.
  split.
  - rewrite (join_session_lookup_failure_is_not_found
               DeviceRosterVariant Scenario.strict (Scenario.failing "abcdef" 0)
               (js "AB12CD") (VStr (js "laptop")) {| err_code := js "08006" |}
               (Scenario.start Scenario.one_session) eq_refl eq_refl).
    reflexivity.
  - exists Scenario.ab12cd. split; [now left | reflexivity].
Defined.

Lemma includes_true (l : list jsstring) (d : jsstring) :
  DeviceRoster.includes l d = true <-> In d l.
Proof.
  unfold DeviceRoster.includes. rewrite existsb_exists. split.
  - intros (x & Hx & E). apply str_eqb_eq in E. now subst x.
  - intros H. exists d. split; [exact H | apply str_eqb_refl].
Qed.

(** A roster update rewrites no id, code or key. *)
Lemma update_keeps_identity (i : jsstring) (ids : list jsstring) (s : Session) :
  identity (if id_is (VStr i) s then set_device_ids ids s else s) = identity s.
Proof. destruct (id_is (VStr i) s); reflexivity. Qed.

Lemma filter_code_map (g : Session -> Session) (c : value) (l : list Session) :
  (forall s, code (g s) = code s) ->
  filter (code_is c) (map g l) = map g (filter (code_is c) l).
Proof.
  intros H. induction l as [|x l IH]; simpl; [reflexivity|].
  unfold code_is at 1. rewrite H. fold (code_is c x).
  destruct (code_is c x); simpl; now rewrite IH.
Qed.

(** X5. In the device-roster variant, a [JoinSession] with a new non-empty
    string [deviceId], the store answering both calls, replies 200 and leaves
    the session with that code carrying a roster that holds the device and
    every device it held before; ids, codes and keys of all sessions are as
    before.  If the device was already on the roster, the roster is
    unchanged. *)
Theorem join_session_registers_device :
  forall (cfg : Config) (env : Env) (c dev : jsstring) (row : Session)
         (st : State) (out : Outcome) (st' : State),
    List.length c = 6 ->
    dev <> [] ->
    filter (code_is (VStr c)) (sessions (db st)) = [row] ->
    fault env (List.length (trace st)) = None ->
    fault env (S (List.length (trace st))) = None ->
    run cfg env (DeviceRoster.join_session (VStr c) (VStr dev)) st = (out, st') ->
    out = Reply 200 [("sessionId", VStr (id row))]%string /\
    map identity (sessions (db st')) = map identity (sessions (db st)) /\
    exists row',
      filter (code_is (VStr c)) (sessions (db st')) = [row'] /\
      identity row' = identity row /\
      In dev (roster row') /\
      (forall d, In d (roster row) -> In d (roster row')) /\
      (In dev (roster row) -> row' = row).
Proof.
  intros cfg env c dev row st out st' L Hdev Hrow F0 F1 R.
  unfold DeviceRoster.join_session in R. simpl in R. rewrite L in R. simpl in R.
  unfold exec at 1 in R. rewrite F0 in R. simpl in R. rewrite Hrow in R.
  simpl in R.
  destruct dev as [|u dev]; [congruence|].
  fold (roster row) in R.
  destruct (DeviceRoster.includes (roster row) (u :: dev)) eqn:E; simpl in R.
  - injection R as <- <-. simpl. split; [reflexivity|]. split; [reflexivity|].
    exists row. apply includes_true in E. repeat split; auto.
  - rewrite length_app, Nat.add_1_r in R. unfold exec in R. rewrite F1 in R.
    simpl in R. injection R as <- <-. simpl.
    split; [reflexivity|]. split.
    + rewrite map_map. apply map_ext. intros s. apply update_keeps_identity.
    + rewrite filter_code_map by (intros s; destruct (id_is _ s); reflexivity).
      rewrite Hrow. simpl.
      assert (id_is (VStr (id row)) row = true) as ->
          by (apply value_eqb_eq; reflexivity).
      eexists. split; [reflexivity|]. unfold roster. simpl.
      split; [reflexivity|]. split; [apply in_app_iff; right; now left|].
      split.
      * intros d Hd. apply in_app_iff. now left.
      * intros H. apply includes_false in E. contradiction.
Qed.

Lemma join_session_registers_device_witness :
  exists row',
    filter (code_is (VStr (js "AB12CD")))
           (sessions (db (snd (run Scenario.strict (Scenario.calm "abcdef")
                                   (DeviceRoster.join_session
                                      (VStr (js "AB12CD")) (VStr (js "laptop")))
                                   (Scenario.start Scenario.one_session))))) = [row'] /\
    In (js "laptop") (roster row') /\ In (js "phone") (roster row').
Proof.
  assert (js "laptop" <> []) as Hdev by discriminate.
  destruct (join_session_registers_device
              Scenario.strict (Scenario.calm "abcdef") (js "AB12CD") (js "laptop")
              Scenario.ab12cd (Scenario.start Scenario.one_session) _ _
              eq_refl Hdev eq_refl eq_refl eq_refl (surjective_pairing _))
    as (_ & _ & row' & Hf & _ & Hin & Hold & _).
  exists row'. split; [exact Hf|]. split; [exact Hin|].
  apply Hold. now left.
Defined.

(** X6. In the device-roster variant, a [JoinSession] whose [deviceId] is
    not a non-empty string (absent, null, a number, the empty string), or is
    already on the roster of the session found, writes nothing: the lookup is
    its only call, the tables are unchanged, and the reply is the 200 of the
    session. *)
Theorem join_session_without_roster_write :
  forall (cfg : Config) (env : Env) (c : jsstring) (deviceId : value)
         (row : Session) (st : State),
    List.length c = 6 ->
    filter (code_is (VStr c)) (sessions (db st)) = [row] ->
    fault env (List.length (trace st)) = None ->
    (~ nonempty_string deviceId \/
     exists dev, deviceId = VStr dev /\ In dev (roster row)) ->
    run cfg env (DeviceRoster.join_session (VStr c) deviceId) st =
      (Reply 200 [("sessionId", VStr (id row))]%string,
       {| db := db st; trace := trace st ++ [SelectSessionByCode (VStr c)];
          nanoids := nanoids st; keys := keys st; console := console st |}).
Proof.
  intros cfg env c deviceId row st L Hrow F H.
  unfold DeviceRoster.join_session. simpl. rewrite L. simpl.
  unfold exec at 1. rewrite F. simpl. rewrite Hrow. simpl.
  fold (roster row).
  destruct deviceId as [| |b|z|dev|o]; simpl; try reflexivity;
    try (destruct b; reflexivity);
    try (destruct (negb (z =? 0)%Z); reflexivity).
  destruct dev as [|u dev]; [reflexivity|].
  assert (DeviceRoster.includes (roster row) (u :: dev) = true) as ->.
  { apply includes_true. destruct H as [H|(d & E & Hin)].
    - exfalso. apply H. exists (u :: dev). split; [reflexivity | discriminate].
    - now injection E as ->. }
  reflexivity.
Qed.

Lemma join_session_without_roster_write_witness :
  db (snd (run Scenario.strict (Scenario.calm "abcdef")
               (DeviceRoster.join_session (VStr (js "AB12CD")) (VStr (js "phone")))
               (Scenario.start Scenario.one_session))) = Scenario.one_session /\
  fst (run Scenario.strict (Scenario.calm "abcdef")
           (DeviceRoster.join_session (VStr (js "AB12CD")) (VNum 7))
           (Scenario.start Scenario.one_session)) =
    Reply 200 [("sessionId", VStr (js "s1"))]%string.
Proof.
  split.
  - rewrite (join_session_without_roster_write
               Scenario.strict (Scenario.calm "abcdef") (js "AB12CD")
               (VStr (js "phone")) Scenario.ab12cd
               (Scenario.start Scenario.one_session) eq_refl eq_refl eq_refl).
    + reflexivity.
    + right. exists (js "phone"). split; [reflexivity | now left].
  - rewrite (join_session_without_roster_write
               Scenario.strict (Scenario.calm "abcdef") (js "AB12CD")
               (VNum 7) Scenario.ab12cd
               (Scenario.start Scenario.one_session) eq_refl eq_refl eq_refl).
    + reflexivity.
    + left. intros (s & E & _). discriminate.
Defined.

(** ** EndSession *)

(** [EndSession] past its guard, call by call. *)
Lemma run_end_session (cfg : Config) (env : Env) (sessionId : value) (st : State) :
  truthy sessionId = true ->
  run cfg env (KeyIssuing.end_session sessionId) st =
  (match fault env (S (List.length (trace st))) with
   | Some _ => Reply 500 [("error", VStr (js "Failed to end session"))]%string
   | None => Reply 200 [("success", VBool true)]%string
   end,
   {| db :=
        {| sessions :=
             match fault env (S (List.length (trace st))) with
             | Some _ => sessions (db st)
             | None => filter (fun s => negb (id_is sessionId s)) (sessions (db st))
             end;
           clipboard_items :=
             match fault env (List.length (trace st)) with
             | Some _ => clipboard_items (db st)
             | None =>
               filter (fun it => negb (of_session sessionId it))
                      (clipboard_items (db st))
             end |};
      trace := trace st ++
               [DeleteItemsBySession sessionId; DeleteSessionById sessionId];
      nanoids := nanoids st; keys := keys st;
      console :=
        match fault env (S (List.length (trace st))) with
        | Some _ => console st ++ ["End session error:"%string]
        | None => console st
        end |}).
Proof.
  intros T. unfold KeyIssuing.end_session. rewrite T. simpl.
  unfold exec. simpl. rewrite length_app, Nat.add_1_r, <- app_assoc. simpl.
  destruct (db st) as [ss its]. simpl.
  destruct (fault env (List.length (trace st)));
    destruct (fault env (S (List.length (trace st)))); reflexivity.
Qed.

Lemma filter_negb_then (T : Type) (f : T -> bool) (l : list T) :
  filter f (filter (fun x => negb (f x)) l) = [].
Proof.
  apply filter_none. intros x Hx. apply filter_In in Hx as [_ Hx].
  now apply negb_true_iff in Hx.
Qed.

Lemma filter_twice (T : Type) (f : T -> bool) (l : list T) :
  filter f (filter f l) = filter f l.
Proof.
  induction l as [|x l IH]; simpl; [reflexivity|].
  destruct (f x) eqn:E; simpl; [rewrite E; f_equal|]; exact IH.
Qed.

Lemma nonempty_truthy (s : jsstring) : s <> [] -> truthy (VStr s) = true.
Proof. destruct s; [congruence | reflexivity]. Qed.

(** X7. After an [EndSession] whose item deletion went through, [Latest] of
    that session replies 404 in either reply format, even when the deletion
    of the session row itself failed and [EndSession] replied 500. *)
Theorem end_session_then_latest_not_found :
  forall (v : Variant) (cfg : Config) (env : Env) (sid : jsstring) (st : State)
         (o1 : Outcome) (st1 : State) (o2 : Outcome) (st2 : State),
    sid <> [] ->
    fault env (List.length (trace st)) = None ->
    run cfg env (KeyIssuing.end_session (VStr sid)) st = (o1, st1) ->
    run cfg env (latest v sid) st1 = (o2, st2) ->
    o2 = not_found_reply v.
Proof.
  intros v cfg env sid st o1 st1 o2 st2 Hsid F R1 R2.
  rewrite (run_end_session cfg env (VStr sid) st (nonempty_truthy sid Hsid)) in R1.
  injection R1 as _ <-. rewrite run_latest in R2. injection R2 as <- _.
  cbn [db clipboard_items]. rewrite F.
  rewrite (filter_negb_then _ (of_session (VStr sid))). simpl.
  case_fault; reflexivity.
Qed.

Lemma end_session_then_latest_witness :
  fst (run Scenario.strict (Scenario.failing "abcdef" 1)
           (latest KeyIssuingVariant (js "s1"))
           (snd (run Scenario.strict (Scenario.failing "abcdef" 1)
                     (KeyIssuing.end_session (VStr (js "s1")))
                     (Scenario.start Scenario.one_session)))) =
    Reply 404 [("error", VStr (js "No clipboard found"))]%string /\
  status_of (fst (run Scenario.strict (Scenario.failing "abcdef" 1)
                      (KeyIssuing.end_session (VStr (js "s1")))
                      (Scenario.start Scenario.one_session))) = Some 500.
Proof.
  assert (js "s1" <> []) as Hsid by discriminate.
  split; [|reflexivity].
  apply (end_session_then_latest_not_found
           KeyIssuingVariant Scenario.strict (Scenario.failing "abcdef" 1)
           (js "s1") (Scenario.start Scenario.one_session) _ _ _ _
           Hsid eq_refl (surjective_pairing _) (surjective_pairing _)).
Defined.

(** X8. After an [EndSession] that replied 200 for the id of every session
    carrying a code, [JoinSession] by that code replies 404 "Session not
    found", in both variants and whatever the store answers. *)
Theorem end_session_then_join_not_found :
  forall (v : Variant) (cfg : Config) (env : Env) (sessionId : value)
         (c : jsstring) (deviceId : value) (st : State)
         (body : list (string * value)) (st1 : State),
    List.length c = 6 ->
    (forall s, In s (sessions (db st)) -> code s = c -> VStr (id s) = sessionId) ->
    run cfg env (KeyIssuing.end_session sessionId) st = (Reply 200 body, st1) ->
    fst (run cfg env (join_session v (VStr c) deviceId) st1) =
      Reply 404 [("error", VStr (js "Session not found"))]%string.
Proof.
  intros v cfg env sessionId c deviceId st body st1 L Hid R.
  pose proof (end_session_frees_code cfg env sessionId st body st1 c R Hid) as H.
  apply no_session_with_code in H.
  destruct v; simpl;
    [unfold KeyIssuing.join_session | unfold DeviceRoster.join_session];
    simpl; rewrite L; simpl; unfold exec;
    destruct (fault env (List.length (trace st1))); simpl;
    try reflexivity;
    rewrite H; simpl; destruct (no_rows cfg); reflexivity.
Qed.

Lemma end_session_then_join_witness :
  fst (run Scenario.strict (Scenario.calm "abcdef")
           (join_session DeviceRosterVariant (VStr (js "AB12CD")) (VStr (js "laptop")))
           (snd (run Scenario.strict (Scenario.calm "abcdef")
                     (KeyIssuing.end_session (VStr (js "s1")))
                     (Scenario.start Scenario.one_session)))) =
    Reply 404 [("error", VStr (js "Session not found"))]%string.
Proof.
  apply (end_session_then_join_not_found
           DeviceRosterVariant Scenario.strict (Scenario.calm "abcdef")
           (VStr (js "s1")) (js "AB12CD") (VStr (js "laptop"))
           (Scenario.start Scenario.one_session)
           [("success", VBool true)]%string _ eq_refl).
  - intros s [<-|[]] _. reflexivity.
  - vm_compute. reflexivity.
Defined.

(** X9. [EndSession] is idempotent and does not report an unknown session:
    with the store answering, it replies 200 whether or not any session or
    item has the id, and a second [EndSession] for the same id replies 200
    again and leaves the tables exactly as the first one left them. *)
Theorem end_session_twice :
  forall (cfg : Config) (env : Env) (sessionId : value) (st : State)
         (o1 : Outcome) (st1 : State) (o2 : Outcome) (st2 : State),
    truthy sessionId = true ->
    (forall k, k < 4 -> fault env (List.length (trace st) + k) = None) ->
    run cfg env (KeyIssuing.end_session sessionId) st = (o1, st1) ->
    run cfg env (KeyIssuing.end_session sessionId) st1 = (o2, st2) ->
    o1 = Reply 200 [("success", VBool true)]%string /\
    o2 = Reply 200 [("success", VBool true)]%string /\
    db st2 = db st1.
Proof.
  intros cfg env sessionId st o1 st1 o2 st2 T F R1 R2.
  rewrite (run_end_session cfg env sessionId st T) in R1.
  injection R1 as <- <-.
  rewrite (run_end_session cfg env sessionId _ T) in R2.
  injection R2 as <- <-. cbn [db trace sessions clipboard_items].
  rewrite length_app. simpl List.length.
  pose proof (F 0) as F0. pose proof (F 1) as F1.
  pose proof (F 2) as F2. pose proof (F 3) as F3.
  rewrite Nat.add_0_r in F0. rewrite Nat.add_1_r in F1.
  replace (S (List.length (trace st) + 2)) with (List.length (trace st) + 3) by lia.
  rewrite F0, F1, F2, F3 by lia.
  rewrite !filter_twice. repeat split.
Qed.

Lemma end_session_twice_witness :
  status_of
    (fst (run Scenario.strict (Scenario.calm "abcdef")
              (KeyIssuing.end_session (VStr (js "no-such-session")))
              (Scenario.start Scenario.one_session))) = Some 200 /\
  db (snd (run Scenario.strict (Scenario.calm "abcdef")
               (KeyIssuing.end_session (VStr (js "s1")))
               (snd (run Scenario.strict (Scenario.calm "abcdef")
                         (KeyIssuing.end_session (VStr (js "s1")))
                         (Scenario.start Scenario.one_session))))) =
    Scenario.empty_db.
Proof.
  split.
  - destruct (end_session_twice
                Scenario.strict (Scenario.calm "abcdef")
                (VStr (js "no-such-session"))
                (Scenario.start Scenario.one_session) _ _ _ _
                eq_refl (fun _ _ => eq_refl)
                (surjective_pairing _) (surjective_pairing _)) as (-> & _).
    reflexivity.
  - destruct (end_session_twice
                Scenario.strict (Scenario.calm "abcdef") (VStr (js "s1"))
                (Scenario.start Scenario.one_session) _ _ _ _
                eq_refl (fun _ _ => eq_refl)
                (surjective_pairing _) (surjective_pairing _)) as (_ & _ & ->).
    reflexivity.
Defined.

(** X10. [EndSession] removes nothing else: whatever the store answers,
    every session with another id and every clipboard item of another
    session is still there afterwards, and nothing is added. *)
Theorem end_session_spares_other_sessions :
  forall (cfg : Config) (env : Env) (sessionId : value) (st : State)
         (out : Outcome) (st' : State),
    run cfg env (KeyIssuing.end_session sessionId) st = (out, st') ->
    (forall s, In s (sessions (db st)) -> id_is sessionId s = false ->
               In s (sessions (db st'))) /\
    (forall it, In it (clipboard_items (db st)) -> of_session sessionId it = false ->
                In it (clipboard_items (db st'))) /\
    (forall s, In s (sessions (db st')) -> In s (sessions (db st))) /\
    (forall it, In it (clipboard_items (db st')) -> In it (clipboard_items (db st))).
Proof.
  intros cfg env sessionId st out st' R.
  destruct (truthy sessionId) eqn:T.
  - rewrite (run_end_session cfg env sessionId st T) in R.
    injection R as _ <-. cbn [db sessions clipboard_items].
    destruct (fault env (List.length (trace st)));
      destruct (fault env (S (List.length (trace st))));
      repeat split; auto; intros x Hx; try intros Hn;
      try (apply filter_In; split; [exact Hx | now rewrite Hn]);
      try (now apply filter_In in Hx as [Hx _]).
  - unfold KeyIssuing.end_session in R. rewrite T in R.
    injection R as _ <-. repeat split; auto.
Qed.

Lemma end_session_spares_witness :
  db (snd (run Scenario.strict (Scenario.calm "abcdef")
               (KeyIssuing.end_session (VStr (js "s1")))
               (Scenario.start Cases.two_sessions))) =
    {| sessions := [Cases.other]; clipboard_items := [Cases.note] |} /\
  In Cases.other
     (sessions (db (snd (run Scenario.strict (Scenario.calm "abcdef")
                             (KeyIssuing.end_session (VStr (js "s1")))
                             (Scenario.start Cases.two_sessions))))).
Proof.
  split; [reflexivity|].
  destruct (end_session_spares_other_sessions
              Scenario.strict (Scenario.calm "abcdef") (VStr (js "s1"))
              (Scenario.start Cases.two_sessions) _ _ (surjective_pairing _))
    as (H & _).
  apply H; [right; now left | reflexivity].
Defined.

(** ** Sync and Latest *)

(** A [Sync] past its guard, the insert answered: the row it appends. *)
Lemma run_sync_ok (v : Variant) (cfg : Config) (env : Env)
      (sessionId clip fromDevice : value) (st : State) :
  sync_rejects v sessionId clip = false ->
  fault env (List.length (trace st)) = None ->
  run cfg env (sync v sessionId clip fromDevice) st =
  (Reply 200 [("success", VBool true)]%string,
   {| db :=
        {| sessions := sessions (db st);
           clipboard_items :=
             clipboard_items (db st) ++
             [{| session_id := sessionId; content := clip;
                 from_device := stored_from_device v fromDevice;
                 created_at := clock env (List.length (trace st)) |}] |};
      trace := trace st ++ [sync_query v sessionId clip fromDevice];
      nanoids := nanoids st; keys := keys st; console := console st |}).
Proof.
  intros G F.
  destruct v; simpl in G; unfold sync;
    [unfold KeyIssuing.sync | unfold DeviceRoster.sync];
    rewrite G; simpl; unfold exec; rewrite F; reflexivity.
Qed.

(** [Latest] when the items of the session, in decreasing order, start with
    a known row. *)
Lemma run_latest_of (v : Variant) (cfg : Config) (env : Env) (sid : jsstring)
      (st : State) (it : ClipboardItem) (rest : list ClipboardItem) :
  fault env (List.length (trace st)) = None ->
  order_desc (filter (of_session (VStr sid)) (clipboard_items (db st))) = it :: rest ->
  fst (run cfg env (latest v sid) st) = latest_reply v it.
Proof. intros F H. rewrite run_latest, F, H. reflexivity. Qed.

(** A row newer than all of a list comes first in decreasing order. *)
Lemma order_desc_newest_last (l : list ClipboardItem) (x : ClipboardItem) :
  (forall y, In y l -> (created_at y < created_at x)%N) ->
  exists rest, order_desc (l ++ [x]) = x :: rest.
Proof.
  induction l as [|y l IH]; intros H.
  - now exists [].
  - destruct IH as [rest E]; [intros z Hz; apply H; now right|].
    change (order_desc ((y :: l) ++ [x]))
      with (insert_desc y (order_desc (l ++ [x]))).
    rewrite E. simpl.
    assert (N.ltb (created_at x) (created_at y) = false) as ->.
    { apply N.ltb_ge. specialize (H y (or_introl eq_refl)). lia. }
    eexists. reflexivity.
Qed.

(** X11. Round trip, both variants: after a [Sync] that passes its guard and
    whose insert the store answers, with the session's earlier items
    strictly older, [Latest] replies with what was synced: the content as
    sent (whatever its type, in the key-issuing variant), and in the
    device-roster variant the [fromDevice] sent, a falsy one normalised to
    null, with the timestamp the store assigned to the insert. *)
Theorem sync_then_latest_round_trip :
  forall (v : Variant) (cfg : Config) (env : Env) (sid : jsstring)
         (clip fromDevice : value) (st : State)
         (o1 : Outcome) (st1 : State) (o2 : Outcome) (st2 : State),
    sync_rejects v (VStr sid) clip = false ->
    fault env (List.length (trace st)) = None ->
    fault env (S (List.length (trace st))) = None ->
    (forall it, In it (clipboard_items (db st)) -> session_id it = VStr sid ->
                (created_at it < clock env (List.length (trace st)))%N) ->
    run cfg env (sync v (VStr sid) clip fromDevice) st = (o1, st1) ->
    run cfg env (latest v sid) st1 = (o2, st2) ->
    o2 = latest_reply v
           {| session_id := VStr sid; content := clip;
              from_device := stored_from_device v fromDevice;
              created_at := clock env (List.length (trace st)) |}.
Proof.
  intros v cfg env sid clip fromDevice st o1 st1 o2 st2 G F0 F1 Hold R1 R2.
  rewrite (run_sync_ok v cfg env _ _ fromDevice st G F0) in R1.
  injection R1 as _ <-.
  assert (o2 = fst (run cfg env (latest v sid)
                        {| db :=
                             {| sessions := sessions (db st);
                                clipboard_items :=
                                  clipboard_items (db st) ++
                                  [{| session_id := VStr sid; content := clip;
                                      from_device := stored_from_device v fromDevice;
                                      created_at := clock env (List.length (trace st)) |}] |};
                           trace := trace st ++ [sync_query v (VStr sid) clip fromDevice];
                           nanoids := nanoids st; keys := keys st;
                           console := console st |})) as ->
      by now rewrite R2.
  destruct (order_desc_newest_last
              (filter (of_session (VStr sid)) (clipboard_items (db st)))
              {| session_id := VStr sid; content := clip;
                 from_device := stored_from_device v fromDevice;
                 created_at := clock env (List.length (trace st)) |})
    as [rest E].
  { intros y Hy. apply filter_In in Hy as [Hy Hs]. apply value_eqb_eq in Hs.
    simpl. now apply Hold. }
  apply run_latest_of with (rest := rest).
  - cbn [trace]. rewrite length_app, Nat.add_1_r. exact F1.
  - cbn [db clipboard_items]. rewrite filter_app. simpl.
    unfold of_session at 2. simpl. rewrite str_eqb_refl. exact E.
Qed.

Lemma sync_then_latest_round_trip_witness :
  fst (run Scenario.strict (Cases.later "abcdef")
           (latest DeviceRosterVariant (js "s1"))
           (snd (run Scenario.strict (Cases.later "abcdef")
                     (sync DeviceRosterVariant (VStr (js "s1")) (VStr (js "world"))
                           (VStr (js "")))
                     (Scenario.start Scenario.one_session)))) =
  Reply 200 [("content", VStr (js "world")); ("fromDevice", VNull);
             ("timestamp", VNum 1)]%string.
Proof.
  assert (forall it,
             In it (clipboard_items (db (Scenario.start Scenario.one_session))) ->
             session_id it = VStr (js "s1") ->
             (created_at it <
              clock (Cases.later "abcdef")
                    (List.length (trace (Scenario.start Scenario.one_session))))%N)
    as Hold.
  { intros it [<-|[]] _. reflexivity. }
  apply (sync_then_latest_round_trip
           DeviceRosterVariant Scenario.strict (Cases.later "abcdef") (js "s1")
           (VStr (js "world")) (VStr (js "")) (Scenario.start Scenario.one_session)
           _ _ _ _ eq_refl eq_refl eq_refl Hold
           (surjective_pairing _) (surjective_pairing _)).
Defined.

(** X12. Sessions are isolated: a [Sync] for one session, whatever its
    outcome, leaves the items of every other session as they were, so
    [Latest] of another session replies as it did before (the store
    answering both queries). *)
Theorem sync_leaves_other_sessions_alone :
  forall (v : Variant) (cfg : Config) (env : Env) (sessionId : value)
         (other : jsstring) (clip fromDevice : value) (st : State)
         (out : Outcome) (st1 : State),
    sessionId <> VStr other ->
    run cfg env (sync v sessionId clip fromDevice) st = (out, st1) ->
    filter (of_session (VStr other)) (clipboard_items (db st1)) =
      filter (of_session (VStr other)) (clipboard_items (db st)) /\
    sessions (db st1) = sessions (db st) /\
    (fault env (List.length (trace st)) = None ->
     fault env (List.length (trace st1)) = None ->
     fst (run cfg env (latest v other) st1) = fst (run cfg env (latest v other) st)).
Proof.
  intros v cfg env sessionId other clip fromDevice st out st1 Hne R.
  assert (filter (of_session (VStr other)) (clipboard_items (db st1)) =
          filter (of_session (VStr other)) (clipboard_items (db st)) /\
          sessions (db st1) = sessions (db st)) as [Hi Hs].
  { destruct (sync_rejects v sessionId clip) eqn:G.
    - assert (st1 = st) as ->; [|split; reflexivity].
      destruct v; simpl in G, R;
        [unfold KeyIssuing.sync in R | unfold DeviceRoster.sync in R];
        rewrite G in R; simpl in R; now injection R as _ <-.
    - destruct (run_sync_accepted v cfg env _ _ _ st out st1 G R)
        as (_ & Hs & [(_ & _ & it & Hi & Hsid & _)|(_ & _ & Hd)]).
      + split; [|exact Hs]. rewrite Hi, filter_app. simpl.
        assert (of_session (VStr other) it = false) as ->.
        { destruct (of_session (VStr other) it) eqn:E; [|reflexivity].
          apply value_eqb_eq in E. congruence. }
        apply app_nil_r.
      + rewrite Hd. split; reflexivity. }
  split; [exact Hi|]. split; [exact Hs|].
  intros F F1. rewrite !run_latest. simpl. now rewrite F, F1, Hi.
Qed.

Lemma sync_leaves_other_sessions_witness :
  fst (run Scenario.strict (Scenario.calm "abcdef")
           (latest KeyIssuingVariant (js "s2"))
           (snd (run Scenario.strict (Scenario.calm "abcdef")
                     (sync KeyIssuingVariant (VStr (js "s1")) (VStr (js "world"))
                           VUndefined)
                     (Scenario.start Cases.two_sessions)))) =
  Reply 200 [("clip", VStr (js "note"))]%string.
Proof.
  assert (VStr (js "s1") <> VStr (js "s2")) as Hne by discriminate.
  destruct (sync_leaves_other_sessions_alone
              KeyIssuingVariant Scenario.strict (Scenario.calm "abcdef")
              (VStr (js "s1")) (js "s2") (VStr (js "world")) VUndefined
              (Scenario.start Cases.two_sessions) _ _ Hne (surjective_pairing _))
    as (_ & _ & H).
  rewrite (H eq_refl eq_refl). reflexivity.
Defined.


(** X13. [Sync] never looks the session up: after an [EndSession] that
    deleted the session and its items, a [Sync] for the same id is still
    accepted with 200, its only call being the insert, and [Latest] then
    serves the new item although no session with that id exists. *)
Theorem sync_after_end_session_is_served :
  forall (v : Variant) (cfg : Config) (env : Env) (sid : jsstring)
         (clip fromDevice : value) (st : State)
         (o1 : Outcome) (st1 : State) (o2 : Outcome) (st2 : State)
         (o3 : Outcome) (st3 : State),
    sid <> [] ->
    sync_rejects v (VStr sid) clip = false ->
    (forall k, k < 4 -> fault env (List.length (trace st) + k) = None) ->
    run cfg env (KeyIssuing.end_session (VStr sid)) st = (o1, st1) ->
    run cfg env (sync v (VStr sid) clip fromDevice) st1 = (o2, st2) ->
    run cfg env (latest v sid) st2 = (o3, st3) ->
    o1 = Reply 200 [("success", VBool true)]%string /\
    o2 = Reply 200 [("success", VBool true)]%string /\
    (forall s, In s (sessions (db st2)) -> id s <> sid) /\
    trace st2 = trace st ++ [DeleteItemsBySession (VStr sid);
                             DeleteSessionById (VStr sid);
                             sync_query v (VStr sid) clip fromDevice] /\
    o3 = latest_reply v
           {| session_id := VStr sid; content := clip;
              from_device := stored_from_device v fromDevice;
              created_at := clock env (List.length (trace st) + 2) |}.
Proof.
  intros v cfg env sid clip fromDevice st o1 st1 o2 st2 o3 st3 Hsid G F R1 R2 R3.
  pose proof (F 0) as F0. pose proof (F 1) as F1.
  pose proof (F 2) as F2. pose proof (F 3) as F3.
  rewrite Nat.add_0_r in F0. rewrite Nat.add_1_r in F1.
  rewrite (run_end_session cfg env (VStr sid) st (nonempty_truthy sid Hsid)) in R1.
  rewrite F0, F1 in R1 by lia. injection R1 as <- <-.
  rewrite (run_sync_ok v cfg env _ _ fromDevice _ G) in R2.
  2:{ cbn [trace]. rewrite length_app. simpl List.length. apply F2. lia. }
  injection R2 as <- <-. cbn [db trace sessions clipboard_items] in *.
  split; [reflexivity|]. split; [reflexivity|]. split; [|split].
  - intros s Hs E. apply filter_In in Hs as [_ Hs].
    apply negb_true_iff in Hs. unfold id_is in Hs. simpl in Hs.
    rewrite E, str_eqb_refl in Hs. discriminate.
  - rewrite <- app_assoc. reflexivity.
  - assert (o3 = fst (run cfg env (latest v sid)
       {| db :=
            {| sessions :=
                 filter (fun s => negb (id_is (VStr sid) s)) (sessions (db st));
               clipboard_items :=
                 filter (fun it => negb (of_session (VStr sid) it))
                        (clipboard_items (db st)) ++
                 [{| session_id := VStr sid; content := clip;
                     from_device := stored_from_device v fromDevice;
                     created_at :=
                       clock env
                         (List.length
                            (trace st ++
                             [DeleteItemsBySession (VStr sid);
                              DeleteSessionById (VStr sid)])) |}] |};
          trace := (trace st ++
                    [DeleteItemsBySession (VStr sid); DeleteSessionById (VStr sid)]) ++
                   [sync_query v (VStr sid) clip fromDevice];
          nanoids := nanoids st; keys := keys st; console := console st |})) as ->
        by now rewrite R3.
    rewrite length_app. simpl List.length.
    apply run_latest_of with (rest := []).
    + cbn [trace]. rewrite !length_app. simpl List.length.
      replace (List.length (trace st) + 2 + 1) with (List.length (trace st) + 3)
        by lia.
      apply F3. lia.
    + cbn [db clipboard_items]. rewrite filter_app.
      rewrite (filter_negb_then _ (of_session (VStr sid))). simpl.
      unfold of_session. simpl. rewrite str_eqb_refl. reflexivity.
Qed.

Lemma sync_after_end_session_witness :
  fst (run Scenario.strict (Scenario.calm "abcdef")
           (latest KeyIssuingVariant (js "s1"))
           (snd (run Scenario.strict (Scenario.calm "abcdef")
                     (sync KeyIssuingVariant (VStr (js "s1")) (VStr (js "late"))
                           VUndefined)
                     (snd (run Scenario.strict (Scenario.calm "abcdef")
                               (KeyIssuing.end_session (VStr (js "s1")))
                               (Scenario.start Scenario.one_session)))))) =
  Reply 200 [("clip", VStr (js "late"))]%string.
Proof.
  assert (js "s1" <> []) as Hsid by discriminate.
  destruct (sync_after_end_session_is_served
              KeyIssuingVariant Scenario.strict (Scenario.calm "abcdef")
              (js "s1") (VStr (js "late")) VUndefined
              (Scenario.start Scenario.one_session) _ _ _ _ _ _
              Hsid eq_refl (fun _ _ => eq_refl)
              (surjective_pairing _) (surjective_pairing _) (surjective_pairing _))
    as (_ & _ & _ & _ & H).
  exact H.
Defined.

(** ** CreateSession *)

(** X14. In the device-roster variant, an insert that fails with any error
    other than the uniqueness violation 23505 ends [CreateSession] at once:
    one draw, one call, reply 500 "Failed to create session", no retry, no
    table changed. *)
Theorem create_session_aborts_on_other_error :
  forall (cfg : Config) (env : Env) (e : StorageError) (st : State),
    fault env (List.length (trace st)) = Some e ->
    err_code e <> js "23505" ->
    run cfg env DeviceRoster.create_session st =
      (Reply 500 [("error", VStr (js "Failed to create session"))]%string,
       {| db := db st;
          trace := trace st ++ [InsertSession (candidate env st 0) None];
          nanoids := S (nanoids st); keys := keys st; console := console st |}).
Proof.
  intros cfg env e st F He.
  unfold DeviceRoster.create_session.
  rewrite run_bind, run_create_step by lia. cbv zeta.
  unfold exec. rewrite F. cbn [fst snd failed error].
  apply str_eqb_neq in He. rewrite He. reflexivity.
Qed.

Lemma create_session_aborts_witness :
  run Scenario.strict (Cases.failing_with "08006" 0)
      DeviceRoster.create_session (Scenario.start Scenario.empty_db) =
  (Reply 500 [("error", VStr (js "Failed to create session"))]%string,
   {| db := Scenario.empty_db;
      trace := [InsertSession (js "AB12CD") None];
      nanoids := 1; keys := 0; console := [] |}).
Proof.
  assert (err_code {| err_code := js "08006" |} <> js "23505") as He
      by (vm_compute; discriminate).
  apply (create_session_aborts_on_other_error
           Scenario.strict (Cases.failing_with "08006" 0)
           {| err_code := js "08006" |} (Scenario.start Scenario.empty_db)
           eq_refl He).
Defined.

(** Once [isUnique] is set the loop is over. *)
Lemma generateUniqueSessionCode_while_done (cfg : Config) (env : Env)
      (fuel : nat) (c : jsstring) (tries : nat) (st : State) :
  run cfg env (KeyIssuing.generateUniqueSessionCode_while fuel c true tries) st =
  ((c, true, tries), st).
Proof. destruct fuel; reflexivity. Qed.

(** The lookup of a code no session carries, on a store that answers "no
    record" without an error. *)
Lemma exec_select_id_fresh (cfg : Config) (env : Env) (c : jsstring) (n : nat) (d : DB) :
  no_rows cfg = None ->
  fault env n = None ->
  (forall s, In s (sessions d) -> code s <> c) ->
  (negb (is_some (data (fst (exec cfg env (SelectSessionIdByCode (VStr c)) n d)))) &&
   negb (is_some (error (fst (exec cfg env (SelectSessionIdByCode (VStr c)) n d)))))%bool
  = true.
Proof.
  intros Hn F H. unfold exec. rewrite F. simpl.
  rewrite (no_session_with_code c (sessions d) H). simpl. now rewrite Hn.
Qed.

(** The loop of [generateUniqueSessionCode] stops at the first drawn code no
    session carries. *)
Lemma generateUniqueSessionCode_while_first_fit (cfg : Config) (env : Env) (j : nat) :
  no_rows cfg = None ->
  forall (fuel : nat) (code0 : jsstring) (tries : nat) (st : State),
    j < fuel -> tries + j < 10 ->
    (forall i, i < j ->
               exists s, In s (sessions (db st)) /\ code s = candidate env st i) ->
    (forall s, In s (sessions (db st)) -> code s <> candidate env st j) ->
    fault env (List.length (trace st) + j) = None ->
    run cfg env
        (KeyIssuing.generateUniqueSessionCode_while fuel code0 false tries) st =
    ((candidate env st j, true, S (tries + j)),
     {| db := db st;
        trace := trace st ++
                 map (fun k => SelectSessionIdByCode (VStr (candidate env st k)))
                     (seq 0 (S j));
        nanoids := nanoids st + S j; keys := keys st; console := console st |}).
Proof.
  intros Hn. induction j as [|j IH];
    intros [|fuel] code0 tries st Hf Ht Hcol Hfresh F; try lia;
    rewrite run_generate_step by lia.
  - rewrite Nat.add_0_r in F.
    rewrite (exec_select_id_fresh cfg env _ _ _ Hn F Hfresh).
    rewrite generateUniqueSessionCode_while_done.
    rewrite Nat.add_0_r, Nat.add_1_r. reflexivity.
  - pose proof (exec_select_id cfg env (candidate env st 0)
                               (List.length (trace st)) (db st)) as (_ & _ & Hsome).
    rewrite (Hsome (Hcol 0 (Nat.lt_0_succ _))).
    match goal with
    | |- run _ _ _ ?s = _ => set (stb := s)
    end.
    assert (forall k, candidate env stb k = candidate env st (S k)) as Hshift
        by (intros k; apply (candidate_shift env st stb k eq_refl)).
    rewrite (IH fuel (candidate env st 0) (S tries) stb); try lia.
    + rewrite Hshift.
      rewrite (map_ext
                 (fun k => SelectSessionIdByCode (VStr (candidate env stb k)))
                 (fun k => SelectSessionIdByCode (VStr (candidate env st (S k)))))
        by (intros k; now rewrite Hshift).
      subst stb. cbn [db trace nanoids keys console].
      rewrite (map_seq_succ _
                 (fun k => SelectSessionIdByCode (VStr (candidate env st k))) (S j)).
      rewrite <- app_assoc. simpl app.
      replace (S (S tries + j)) with (S (tries + S j)) by lia.
      replace (S (nanoids st) + S j) with (nanoids st + S (S j)) by lia.
      reflexivity.
    + intros i Hi. rewrite Hshift. apply Hcol. lia.
    + intros s Hs. rewrite Hshift. now apply Hfresh.
    + subst stb. cbn [trace]. rewrite length_app, Nat.add_1_r. simpl.
      now rewrite Nat.add_succ_r in F.
Qed.

(** An insert of a code no session carries, the store answering: the new row
    is appended with the identifier the store assigns. *)
Lemma exec_insert_fresh (cfg : Config) (env : Env) (c : jsstring)
      (key : option jsstring) (n : nat) (d : DB) :
  fault env n = None ->
  (forall s, In s (sessions d) -> code s <> c) ->
  exec cfg env (InsertSession c key) n d =
  ({| data := Some {| id := uuid_out env n; code := c; aes_key := key;
                      device_ids := None |};
      error := None |},
   {| sessions := sessions d ++
                  [{| id := uuid_out env n; code := c; aes_key := key;
                      device_ids := None |}];
      clipboard_items := clipboard_items d |}).
Proof.
  intros F H. unfold exec. rewrite F. simpl.
  assert (existsb (code_is (VStr c)) (sessions d) = false) as ->.
  { destruct (existsb (code_is (VStr c)) (sessions d)) eqn:E; [|reflexivity].
    apply existsb_exists in E as (s & Hs & Hc). apply code_is_true in Hc.
    now apply H in Hs. }
  now rewrite andb_false_r.
Qed.

(** An insert of a code a session carries, under the uniqueness constraint:
    the violation 23505, nothing inserted. *)
Lemma exec_insert_taken (cfg : Config) (env : Env) (c : jsstring)
      (key : option jsstring) (n : nat) (d : DB) :
  unique_code cfg = true ->
  fault env n = None ->
  (exists s, In s (sessions d) /\ code s = c) ->
  exec cfg env (InsertSession c key) n d = (failed Session unique_violation, d).
Proof.
  intros U F (s & Hs & Hc). unfold exec. rewrite F. simpl. rewrite U.
  assert (existsb (code_is (VStr c)) (sessions d) = true) as ->
      by (apply existsb_exists; exists s; split; [exact Hs | now apply code_is_true]).
  reflexivity.
Qed.

(** The loop of the device-roster [CreateSession] succeeds with the first
    drawn code no session carries. *)
Lemma create_session_while_first_fit (cfg : Config) (env : Env) (j : nat) :
  unique_code cfg = true ->
  forall (fuel tries : nat) (st : State),
    j < fuel -> tries + j < 5 ->
    (forall i, i < j ->
               exists s, In s (sessions (db st)) /\ code s = candidate env st i) ->
    (forall s, In s (sessions (db st)) -> code s <> candidate env st j) ->
    (forall i, i <= j -> fault env (List.length (trace st) + i) = None) ->
    run cfg env (DeviceRoster.create_session_while fuel tries) st =
    (DeviceRoster.Returned
       (Reply 200 [("sessionId", VStr (uuid_out env (List.length (trace st) + j)));
                   ("code", VStr (candidate env st j))]%string),
     {| db :=
          {| sessions :=
               sessions (db st) ++
               [{| id := uuid_out env (List.length (trace st) + j);
                   code := candidate env st j; aes_key := None;
                   device_ids := None |}];
             clipboard_items := clipboard_items (db st) |};
        trace := trace st ++
                 map (fun k => InsertSession (candidate env st k) None) (seq 0 (S j));
        nanoids := nanoids st + S j; keys := keys st; console := console st |}).
Proof.
  intros U. induction j as [|j IH];
    intros [|fuel] tries st Hf Ht Hcol Hfresh F; try lia;
    rewrite run_create_step by lia; cbv zeta.
  - pose proof (F 0 (Nat.le_refl _)) as F0. rewrite Nat.add_0_r in F0.
    rewrite (exec_insert_fresh cfg env _ None _ _ F0 Hfresh).
    cbn [fst snd data error]. rewrite !Nat.add_0_r, Nat.add_1_r. reflexivity.
  - pose proof (F 0 (Nat.le_0_l _)) as F0. rewrite Nat.add_0_r in F0.
    rewrite (exec_insert_taken cfg env _ None _ _ U F0 (Hcol 0 (Nat.lt_0_succ _))).
    cbn [fst snd failed error unique_violation err_code].
    change (negb (str_eqb (js "23505") (js "23505"))) with false. cbv iota.
    match goal with
    | |- run _ _ _ ?s = _ => set (stb := s)
    end.
    assert (forall k, candidate env stb k = candidate env st (S k)) as Hshift
        by (intros k; apply (candidate_shift env st stb k eq_refl)).
    assert (List.length (trace stb) = S (List.length (trace st))) as Hlen
        by (subst stb; cbn [trace]; now rewrite length_app, Nat.add_1_r).
    rewrite (IH fuel (S tries) stb); try lia.
    + rewrite Hshift, Hlen.
      rewrite (map_ext
                 (fun k => InsertSession (candidate env stb k) None)
                 (fun k => InsertSession (candidate env st (S k)) None))
        by (intros k; now rewrite Hshift).
      subst stb. cbn [db trace nanoids keys console sessions clipboard_items].
      rewrite (map_seq_succ _
                 (fun k => InsertSession (candidate env st k) None) (S j)).
      rewrite <- app_assoc. simpl. rewrite ?Nat.add_succ_r. reflexivity.
    + intros i Hi. rewrite Hshift. apply Hcol. lia.
    + intros s Hs. rewrite Hshift. now apply Hfresh.
    + intros i Hi. rewrite Hlen.
      replace (S (List.length (trace st)) + i)
        with (List.length (trace st) + S i) by lia.
      apply F. lia.
Qed.

(** X15. First fit, both variants: when the first [j] drawn codes are
    carried by live sessions and the next one is not ([j] below the bound of
    attempts), on a store that answers without fault ("no record" without an
    error for the key-issuing lookup, the uniqueness constraint for the
    device-roster insert), [CreateSession] makes exactly [j + 1] draws and
    attempts, replies 200 with that first free code, and appends one session
    carrying it; the key-issuing variant stores the drawn key on it. *)
Theorem create_session_first_free_code :
  forall (v : Variant) (cfg : Config) (env : Env) (j : nat) (st : State)
         (out : Outcome) (st' : State),
    j < attempts v ->
    (v = KeyIssuingVariant -> no_rows cfg = None) ->
    (v = DeviceRosterVariant -> unique_code cfg = true) ->
    (forall i, i < j ->
               exists s, In s (sessions (db st)) /\ code s = candidate env st i) ->
    (forall s, In s (sessions (db st)) -> code s <> candidate env st j) ->
    (forall i, i <= S j -> fault env (List.length (trace st) + i) = None) ->
    run cfg env (create_session v) st = (out, st') ->
    status_of out = Some 200 /\
    field "code" (body_of out) = Some (VStr (candidate env st j)) /\
    nanoids st' = nanoids st + S j /\
    trace st' =
      trace st ++
      map (fun k => attempt_query v (candidate env st k)) (seq 0 (S j)) ++
      match v with
      | KeyIssuingVariant =>
        [InsertSession (candidate env st j) (Some (key_out env (keys st)))]
      | DeviceRosterVariant => []
      end /\
    exists row,
      sessions (db st') = sessions (db st) ++ [row] /\
      code row = candidate env st j /\
      field "sessionId" (body_of out) = Some (VStr (id row)) /\
      aes_key row =
        match v with
        | KeyIssuingVariant => Some (key_out env (keys st))
        | DeviceRosterVariant => None
        end.
Proof.
  intros v cfg env j st out st' Hj HA HB Hcol Hfresh F R.
  destruct v; unfold create_session in R; simpl in Hj.
  - unfold KeyIssuing.create_session, KeyIssuing.create_session_try,
      KeyIssuing.generateUniqueSessionCode in R.
    rewrite !run_bind in R.
    rewrite (generateUniqueSessionCode_while_first_fit
               cfg env j (HA eq_refl) 10 (js "") 0 st) in R;
      try lia; try (apply F; lia); auto.
    assert (fault env
              (List.length
                 (trace st ++
                  map (fun k => SelectSessionIdByCode (VStr (candidate env st k)))
                      (seq 0 (S j)))) = None) as Fins
        by (rewrite length_app, length_map, length_seq; apply F; lia).
    pose proof (exec_insert_fresh cfg env (candidate env st j)
                  (Some (key_out env (keys st))) _ (db st) Fins Hfresh) as Hins.
    simpl in Hins. simpl in R. rewrite Hins in R.
    simpl in R. injection R as <- <-. simpl.
    rewrite <- app_assoc. simpl.
    repeat split. eexists. repeat split.
  - unfold DeviceRoster.create_session in R. rewrite run_bind in R.
    rewrite (create_session_while_first_fit cfg env j (HB eq_refl) 5 0 st) in R;
      try lia; auto.
    simpl in R. injection R as <- <-. simpl.
    rewrite app_nil_r. repeat split.
    eexists. repeat split.
Qed.

Lemma create_session_first_free_code_witness :
  (field "code"
     (body_of (fst (run Scenario.strict (Cases.draws "ab12cd" "zz99zz" 2)
                        (create_session DeviceRosterVariant)
                        (Scenario.start Scenario.one_session)))) =
     Some (VStr (js "ZZ99ZZ")) /\
   nanoids (snd (run Scenario.strict (Cases.draws "ab12cd" "zz99zz" 2)
                     (create_session DeviceRosterVariant)
                     (Scenario.start Scenario.one_session))) = 3) /\
  (field "code"
     (body_of (fst (run Scenario.lenient (Cases.draws "ab12cd" "zz99zz" 2)
                        (create_session KeyIssuingVariant)
                        (Scenario.start Scenario.one_session)))) =
     Some (VStr (js "ZZ99ZZ")) /\
   List.length
     (trace (snd (run Scenario.lenient (Cases.draws "ab12cd" "zz99zz" 2)
                      (create_session KeyIssuingVariant)
                      (Scenario.start Scenario.one_session)))) = 4).
Proof.
  assert (forall i, i < 2 ->
            exists s, In s (sessions (db (Scenario.start Scenario.one_session))) /\
                      code s = candidate (Cases.draws "ab12cd" "zz99zz" 2)
                                         (Scenario.start Scenario.one_session) i)
    as Hcol.
  { intros i Hi. exists Scenario.ab12cd. split; [now left|].
    destruct i as [|[|i]]; [reflexivity | reflexivity | lia]. }
  assert (forall s, In s (sessions (db (Scenario.start Scenario.one_session))) ->
                    code s <> candidate (Cases.draws "ab12cd" "zz99zz" 2)
                                        (Scenario.start Scenario.one_session) 2)
    as Hfresh.
  { intros s [<-|[]]. vm_compute. discriminate. }
  assert (2 < 5) as H5 by lia.
  assert (2 < 10) as H10 by lia.
  assert (DeviceRosterVariant = KeyIssuingVariant -> no_rows Scenario.strict = None)
    as HA by discriminate.
  assert (KeyIssuingVariant = DeviceRosterVariant ->
          unique_code Scenario.lenient = true) as HB by discriminate.
  split.
  - destruct (create_session_first_free_code
                DeviceRosterVariant Scenario.strict
                (Cases.draws "ab12cd" "zz99zz" 2) 2
                (Scenario.start Scenario.one_session) _ _
                H5 HA (fun _ => eq_refl) Hcol Hfresh (fun _ _ => eq_refl)
                (surjective_pairing _))
      as (_ & Hcode & Hn & _).
    split; [exact Hcode | exact Hn].
  - destruct (create_session_first_free_code
                KeyIssuingVariant Scenario.lenient
                (Cases.draws "ab12cd" "zz99zz" 2) 2
                (Scenario.start Scenario.one_session) _ _
                H10 (fun _ => eq_refl) HB Hcol Hfresh (fun _ _ => eq_refl)
                (surjective_pairing _))
      as (_ & Hcode & _ & Ht & _).
    split; [exact Hcode|]. rewrite Ht. reflexivity.
Defined.

(** On a store whose lookup reports an error for "no row", no lookup ever
    sets [isUnique]: the loop runs its 10 passes. *)
Lemma generateUniqueSessionCode_while_never_unique (cfg : Config) (env : Env)
      (e : StorageError) (fuel : nat) :
  no_rows cfg = Some e ->
  forall (code0 : jsstring) (tries : nat) (st : State),
    fuel + tries = 10 ->
    exists code1,
      run cfg env
          (KeyIssuing.generateUniqueSessionCode_while fuel code0 false tries) st =
      ((code1, false, 10),
       {| db := db st;
          trace := trace st ++
                   map (fun k => SelectSessionIdByCode (VStr (candidate env st k)))
                       (seq 0 fuel);
          nanoids := nanoids st + fuel; keys := keys st; console := console st |}).
Proof.
  intros Hn. induction fuel as [|fuel IH]; intros code0 tries st Hsum.
  - exists code0. simpl in Hsum. subst tries. simpl. now rewrite state_eta.
  - rewrite run_generate_step by lia.
    pose proof (exec_select_id cfg env (candidate env st 0)
                               (List.length (trace st)) (db st)) as (_ & Hnone & _).
    match goal with
    | |- context [KeyIssuing.generateUniqueSessionCode_while fuel _ ?b _] =>
      destruct b eqn:E; [destruct (Hnone eq_refl); congruence|]
    end.
    match goal with
    | |- context [run _ _ _ ?s] => set (stb := s)
    end.
    assert (forall k, candidate env stb k = candidate env st (S k)) as Hshift
        by (intros k; apply (candidate_shift env st stb k eq_refl)).
    destruct (IH (candidate env st 0) (S tries) stb) as [code1 Hrun]; [lia|].
    exists code1. rewrite Hrun.
    rewrite (map_ext
               (fun k => SelectSessionIdByCode (VStr (candidate env stb k)))
               (fun k => SelectSessionIdByCode (VStr (candidate env st (S k)))))
      by (intros k; now rewrite Hshift).
    subst stb. cbn [db trace nanoids keys console].
    rewrite (map_seq_succ _
               (fun k => SelectSessionIdByCode (VStr (candidate env st k))) fuel).
    rewrite <- app_assoc. simpl. rewrite ?Nat.add_succ_r. reflexivity.
Qed.

(** X16. On a store whose single-row lookup reports an error when no row
    matches (as the [.single()] of supabase-js does), the key-issuing
    [CreateSession] cannot succeed: [generateUniqueSessionCode] asks for "no
    data and no error", gets an error for every free code, makes its 10
    lookups and throws; the reply is 500, no key is drawn, no insert is
    attempted, and one line is logged. *)
Theorem create_session_never_unique_on_strict_lookup :
  forall (cfg : Config) (env : Env) (e : StorageError) (st : State),
    no_rows cfg = Some e ->
    run cfg env KeyIssuing.create_session st =
      (Reply 500 [("error", VStr (js "Failed to create session"))]%string,
       {| db := db st;
          trace := trace st ++
                   map (fun k => SelectSessionIdByCode (VStr (candidate env st k)))
                       (seq 0 10);
          nanoids := nanoids st + 10; keys := keys st;
          console := console st ++ ["Session creation failed:"%string] |}).
Proof.
  intros cfg env e st Hn.
  destruct (generateUniqueSessionCode_while_never_unique
              cfg env e 10 Hn (js "") 0 st eq_refl) as [code1 W].
  unfold KeyIssuing.create_session, KeyIssuing.create_session_try,
    KeyIssuing.generateUniqueSessionCode.
  rewrite !run_bind, W. reflexivity.
Qed.

Lemma create_session_never_unique_witness :
  fst (run Scenario.strict (Scenario.calm "zz99zz") KeyIssuing.create_session
           (Scenario.start Scenario.empty_db)) =
    Reply 500 [("error", VStr (js "Failed to create session"))]%string /\
  db (snd (run Scenario.strict (Scenario.calm "zz99zz") KeyIssuing.create_session
               (Scenario.start Scenario.empty_db))) = Scenario.empty_db.
Proof.
  rewrite (create_session_never_unique_on_strict_lookup
             Scenario.strict (Scenario.calm "zz99zz") not_one_row
             (Scenario.start Scenario.empty_db) eq_refl).
  split; reflexivity.
Defined.

(** The 200 reply of [CreateSession] describes the one row it appended: its
    id, its code, and in the key-issuing variant its key. *)
Lemma create_session_reply_row (v : Variant) (cfg : Config) (env : Env)
      (st : State) (body : list (string * value)) (st1 : State) :
  run cfg env (create_session v) st = (Reply 200 body, st1) ->
  exists k row,
    sessions (db st1) = sessions (db st) ++ [row] /\
    code row = candidate env st k /\
    (v = KeyIssuingVariant \/ unique_code cfg = true ->
     forall s, In s (sessions (db st)) -> code s <> code row) /\
    body =
      match v with
      | KeyIssuingVariant =>
        [("sessionId", VStr (id row)); ("code", VStr (code row));
         ("aesKey", opt_str (aes_key row))]%string
      | DeviceRosterVariant =>
        [("sessionId", VStr (id row)); ("code", VStr (code row))]%string
      end.
Proof.
  destruct v; unfold create_session.
  - unfold KeyIssuing.create_session, KeyIssuing.create_session_try.
    rewrite !run_bind.
    destruct (run cfg env KeyIssuing.generateUniqueSessionCode st)
      as [[e|c] st0] eqn:G;
      apply run_generateUniqueSessionCode in G as (Hd & _ & G).
    + simpl. discriminate.
    + destruct G as (_ & k & -> & Hfresh). simpl. unfold exec.
      destruct (fault env (List.length (trace st0))); simpl; [discriminate|].
      destruct (unique_code cfg && existsb _ _)%bool; simpl; [discriminate|].
      intros R. injection R as <- <-. simpl. rewrite Hd.
      exists k. eexists. split; [reflexivity|]. simpl. repeat split. auto.
  - unfold DeviceRoster.create_session. rewrite run_bind.
    destruct (run cfg env (DeviceRoster.create_session_while 5 0) st)
      as [[o|t] st0] eqn:W; apply create_session_while_exit in W; simpl;
      intros R; [|discriminate R].
    injection R as Ho <-. subst o.
    destruct W as [(k & row & Ho & Hc & Hs & _ & Hu)|[Ho _]]; [|discriminate].
    injection Ho as ->. exists k, row. rewrite Hc. repeat split; auto.
    intros [H|H]; [discriminate|]. rewrite <- Hc. now apply Hu.
Qed.

(** X17. Round trip: after a [CreateSession] that replied 200, a
    [JoinSession] with the code of that reply, the lookup answering, replies
    200 with the same [sessionId], and in the key-issuing variant with the
    same [aesKey]: the key is read back from the session, not drawn again. *)
Theorem create_then_join_round_trip :
  forall (v : Variant) (cfg : Config) (env : Env) (st : State)
         (body : list (string * value)) (st1 : State)
         (c : jsstring) (deviceId : value) (out : Outcome) (st2 : State),
    (forall n, nanoid_output 6 (nanoid_out env 6 n)) ->
    (v = DeviceRosterVariant -> unique_code cfg = true) ->
    run cfg env (create_session v) st = (Reply 200 body, st1) ->
    field "code" body = Some (VStr c) ->
    fault env (List.length (trace st1)) = None ->
    run cfg env (join_session v (VStr c) deviceId) st1 = (out, st2) ->
    status_of out = Some 200 /\
    field "sessionId" (body_of out) = field "sessionId" body /\
    field "sessionId" body <> None /\
    keys st2 = keys st1 /\
    (v = KeyIssuingVariant ->
     field "aesKey" (body_of out) = field "aesKey" body).
Proof.
  intros v cfg env st body st1 c deviceId out st2 Hn Hu R Hc F R2.
  destruct (create_session_reply_row v cfg env st body st1 R)
    as (k & row & Hs & Hcode & Hfresh & Hb).
  assert (c = code row) as ->.
  { rewrite Hb in Hc. destruct v; simpl in Hc; congruence. }
  assert (filter (code_is (VStr (code row))) (sessions (db st1)) = [row]) as Hrow.
  { rewrite Hs, filter_app. rewrite no_session_with_code.
    - simpl. unfold code_is. simpl. now rewrite str_eqb_refl.
    - apply Hfresh. destruct v; [now left | right; now apply Hu]. }
  assert (List.length (code row) = 6) as L.
  { rewrite Hcode. now apply candidate_shape. }
  destruct (run_join_known v cfg env (code row) deviceId row st1 L Hrow F)
    as (st' & R' & Hk & _).
  rewrite R' in R2. injection R2 as <- <-. rewrite Hb.
  destruct v; simpl; repeat split; auto; discriminate.
Qed.

Lemma create_then_join_round_trip_witness :
  field "aesKey"
    (body_of
       (fst (run Scenario.lenient (Scenario.calm "zz99zz")
                 (join_session KeyIssuingVariant (VStr (js "ZZ99ZZ")) VUndefined)
                 (snd (run Scenario.lenient (Scenario.calm "zz99zz")
                           (create_session KeyIssuingVariant)
                           (Scenario.start Scenario.one_session)))))) =
  Some (VStr (js "k1")).
Proof.
  assert (forall n, nanoid_output 6 (nanoid_out (Scenario.calm "zz99zz") 6 n)) as Hn.
  { intros n. split; reflexivity. }
  assert (KeyIssuingVariant = DeviceRosterVariant ->
          unique_code Scenario.lenient = true) as Hu by discriminate.
  assert (run Scenario.lenient (Scenario.calm "zz99zz")
              (create_session KeyIssuingVariant)
              (Scenario.start Scenario.one_session) =
          (Reply 200 [("sessionId", VStr (js "session-1"));
                      ("code", VStr (js "ZZ99ZZ"));
                      ("aesKey", VStr (js "k1"))]%string,
           snd (run Scenario.lenient (Scenario.calm "zz99zz")
                    (create_session KeyIssuingVariant)
                    (Scenario.start Scenario.one_session)))) as R
      by (vm_compute; reflexivity).
  destruct (create_then_join_round_trip
              KeyIssuingVariant Scenario.lenient (Scenario.calm "zz99zz")
              (Scenario.start Scenario.one_session) _ _
              (js "ZZ99ZZ") VUndefined _ _ Hn Hu R eq_refl eq_refl
              (surjective_pairing _)) as (_ & _ & _ & _ & H).
  rewrite (H eq_refl). reflexivity.
Defined.

(** The loop of [generateUniqueSessionCode] makes as many lookups as draws,
    at most as many as it has fuel, and at least one when it starts with its
    condition true. *)
Lemma generateUniqueSessionCode_while_count (cfg : Config) (env : Env) (fuel : nat) :
  forall (code0 : jsstring) (isUnique : bool) (tries : nat) (st : State)
         (res : jsstring * bool * nat) (st' : State),
    run cfg env
        (KeyIssuing.generateUniqueSessionCode_while fuel code0 isUnique tries) st =
      (res, st') ->
    exists m,
      m <= fuel /\
      nanoids st' = nanoids st + m /\
      List.length (trace st') = List.length (trace st) + m /\
      keys st' = keys st /\
      (isUnique = false -> tries < 10 -> 0 < fuel -> 1 <= m).
Proof.
  induction fuel as [|fuel IH]; intros code0 isUnique tries st res st' R.
  - simpl in R. injection R as _ <-. exists 0. repeat split; lia.
  - destruct isUnique.
    { simpl in R. injection R as _ <-. exists 0.
      repeat split; try lia; discriminate. }
    destruct (tries <? 10) eqn:Ht.
    2:{ simpl in R. rewrite Ht in R. simpl in R. injection R as _ <-.
        apply Nat.ltb_ge in Ht. exists 0. repeat split; lia. }
    apply Nat.ltb_lt in Ht. rewrite run_generate_step in R by exact Ht.
    apply IH in R. destruct R as (m & Hm & Hn & Hl & Hk & _).
    cbn [nanoids trace keys] in Hn, Hl, Hk.
    rewrite length_app, Nat.add_1_r in Hl.
    exists (S m). repeat split; lia.
Qed.

(** The same count for the loop of the device-roster [CreateSession]. *)
Lemma create_session_while_count (cfg : Config) (env : Env) (fuel : nat) :
  forall (tries : nat) (st : State) (x : DeviceRoster.LoopExit) (st' : State),
    run cfg env (DeviceRoster.create_session_while fuel tries) st = (x, st') ->
    exists m,
      m <= fuel /\
      nanoids st' = nanoids st + m /\
      List.length (trace st') = List.length (trace st) + m /\
      keys st' = keys st /\
      (tries < 5 -> 0 < fuel -> 1 <= m).
Proof.
  induction fuel as [|fuel IH]; intros tries st x st' R.
  - simpl in R. injection R as _ <-. exists 0. repeat split; lia.
  - destruct (tries <? 5) eqn:Ht.
    2:{ simpl in R. rewrite Ht in R. injection R as _ <-.
        apply Nat.ltb_ge in Ht. exists 0. repeat split; lia. }
    apply Nat.ltb_lt in Ht. rewrite run_create_step in R by exact Ht.
    cbv zeta in R.
    destruct (error (fst (exec cfg env _ _ _))) as [e|].
    + destruct (negb (str_eqb (err_code e) (js "23505"))).
      * injection R as _ <-. exists 1. cbn [nanoids trace keys].
        rewrite length_app. simpl. repeat split; lia.
      * apply IH in R. destruct R as (m & Hm & Hn & Hl & Hk & _).
        cbn [nanoids trace keys] in Hn, Hl, Hk.
        rewrite length_app, Nat.add_1_r in Hl.
        exists (S m). repeat split; lia.
    + destruct (data (fst (exec cfg env _ _ _)));
        injection R as _ <-; exists 1; cbn [nanoids trace keys];
        rewrite length_app; simpl; repeat split; lia.
Qed.

(** X18. [CreateSession] is bounded whatever the store answers: it draws at
    least one and at most 10 codes in the key-issuing variant and 5 in the
    device-roster variant, makes one store call per draw plus, in the
    key-issuing variant, at most one insert, and draws at most one key (none
    in the device-roster variant). *)
Theorem create_session_attempts_bounded :
  forall (v : Variant) (cfg : Config) (env : Env) (st : State)
         (out : Outcome) (st' : State),
    run cfg env (create_session v) st = (out, st') ->
    exists m,
      1 <= m /\ m <= attempts v /\
      nanoids st' = nanoids st + m /\
      List.length (trace st) + m <= List.length (trace st') /\
      List.length (trace st') <=
        List.length (trace st) + m +
        match v with KeyIssuingVariant => 1 | DeviceRosterVariant => 0 end /\
      keys st' <=
        keys st + match v with KeyIssuingVariant => 1 | DeviceRosterVariant => 0 end.
Proof.
  intros v cfg env st out st' R. destruct v; unfold create_session in R.
  - unfold KeyIssuing.create_session, KeyIssuing.create_session_try,
      KeyIssuing.generateUniqueSessionCode in R.
    rewrite !run_bind in R.
    destruct (run cfg env (KeyIssuing.generateUniqueSessionCode_while 10 _ _ _) st)
      as [[[c u] t] st0] eqn:W.
    apply generateUniqueSessionCode_while_count in W
      as (m & Hm & Hn & Hl & Hk & H1).
    specialize (H1 eq_refl ltac:(lia) ltac:(lia)).
    exists m. simpl attempts.
    destruct u; simpl in R.
    + destruct (exec cfg env _ _ _) as [[dr [e|]] d]; simpl in R;
        [|destruct dr]; injection R as _ <-; cbn [nanoids trace keys];
        rewrite length_app; simpl; repeat split; lia.
    + injection R as _ <-. cbn [nanoids trace keys]. repeat split; lia.
  - unfold DeviceRoster.create_session in R. rewrite run_bind in R.
    destruct (run cfg env (DeviceRoster.create_session_while 5 0) st)
      as [x st0] eqn:W.
    apply create_session_while_count in W as (m & Hm & Hn & Hl & Hk & H1).
    specialize (H1 ltac:(lia) ltac:(lia)).
    exists m. simpl attempts.
    destruct x; simpl in R; injection R as _ <-; repeat split; lia.
Qed.

Lemma create_session_attempts_bounded_witness :
  exists m,
    1 <= m /\ m <= 10 /\
    nanoids (snd (run Scenario.lenient (Cases.draws "ab12cd" "zz99zz" 2)
                      (create_session KeyIssuingVariant)
                      (Scenario.start Scenario.one_session))) = 0 + m.
Proof.
  destruct (create_session_attempts_bounded
              KeyIssuingVariant Scenario.lenient (Cases.draws "ab12cd" "zz99zz" 2)
              (Scenario.start Scenario.one_session) _ _ (surjective_pairing _))
    as (m & H1 & H2 & H3 & _).
  exists m. split; [exact H1|]. split; [exact H2 | exact H3].
Defined.

(** ** What only EndSession does *)

Lemma keeps_rows_same (d d' : DB) :
  map identity (sessions d') = map identity (sessions d) ->
  clipboard_items d' = clipboard_items d ->
  keeps_rows d d'.
Proof.
  intros Hs Hi. split; exists []; rewrite app_nil_r; assumption.
Qed.

(** A join rewrites rosters at most: ids, codes, keys and items stay. *)
Lemma run_join_keeps (v : Variant) (cfg : Config) (env : Env) (c deviceId : value)
      (st : State) (out : Outcome) (st' : State) :
  run cfg env (join_session v c deviceId) st = (out, st') ->
  map identity (sessions (db st')) = map identity (sessions (db st)) /\
  clipboard_items (db st') = clipboard_items (db st).
Proof.
  intros R. destruct v; unfold join_session in R.
  - unfold KeyIssuing.join_session in R.
    destruct (negb (is_string c) || negb (js_length c =? 6))%bool.
    { injection R as _ <-. split; reflexivity. }
    simpl in R.
    pose proof (exec_select_session cfg env c (List.length (trace st)) (db st))
      as [Hdb _].
    destruct (exec cfg env (SelectSessionByCode c) (List.length (trace st)) (db st))
      as [[[row|] [e|]] d0]; simpl in Hdb; subst d0; simpl in R;
      injection R as _ <-; split; reflexivity.
  - unfold DeviceRoster.join_session in R.
    destruct (negb (is_string c) || negb (js_length c =? 6))%bool.
    { injection R as _ <-. split; reflexivity. }
    rewrite run_bind in R. simpl in R.
    pose proof (exec_select_session cfg env c (List.length (trace st)) (db st))
      as [Hdb _].
    destruct (exec cfg env (SelectSessionByCode c) (List.length (trace st)) (db st))
      as [[[row|] [e|]] d0]; simpl in Hdb; subst d0; simpl in R;
      try (injection R as _ <-; split; reflexivity).
    rewrite run_bind in R.
    match type of R with
    | context [run cfg env ?p ?s] =>
      destruct (run_roster_update cfg env row deviceId s)
        as [Hp|(dev & Hd & Hne & Hni & Hp)];
        cbv zeta in Hp;
        match type of Hp with
        | _ = ?x => replace (run cfg env p s) with x in R by (symmetry; exact Hp)
        end
    end.
    + simpl in R. injection R as _ <-. split; reflexivity.
    + simpl in R. injection R as _ <-. cbn [db]. unfold exec.
      case_fault; simpl; [split; reflexivity|]. split; [|reflexivity].
      rewrite map_map. apply map_ext. intros s. apply update_keeps_identity.
Qed.

(** X19. Only [EndSession] removes rows.  Whatever the request and whatever
    the store answers, after [CreateSession], [JoinSession], [Sync] or
    [Latest], in both variants, every session row is still in place with its
    id, code and key, every clipboard item is still in place, and new rows
    were only appended. *)
Theorem only_end_session_removes_rows :
  forall (v : Variant) (cfg : Config) (env : Env) (st : State),
    (forall out st',
        run cfg env (create_session v) st = (out, st') ->
        keeps_rows (db st) (db st')) /\
    (forall c deviceId out st',
        run cfg env (join_session v c deviceId) st = (out, st') ->
        keeps_rows (db st) (db st')) /\
    (forall sessionId clip fromDevice out st',
        run cfg env (sync v sessionId clip fromDevice) st = (out, st') ->
        keeps_rows (db st) (db st')) /\
    (forall sid out st',
        run cfg env (latest v sid) st = (out, st') ->
        keeps_rows (db st) (db st')).
Proof.
  intros v cfg env st. split; [|split; [|split]].
  - intros out st' R.
    destruct (create_session_outcome v cfg env st out st' R)
      as [(k & row & body & _ & _ & _ & Hs & Hi & _)|[_ Hd]].
    + split; [exists [identity row] | exists []].
      * rewrite Hs, map_app. reflexivity.
      * now rewrite app_nil_r.
    + rewrite Hd. now apply keeps_rows_same.
  - intros c deviceId out st' R.
    destruct (run_join_keeps v cfg env c deviceId st out st' R) as [Hs Hi].
    now apply keeps_rows_same.
  - intros sessionId clip fromDevice out st' R.
    destruct (sync_rejects v sessionId clip) eqn:G.
    + assert (st' = st) as ->; [|now apply keeps_rows_same].
      destruct v; simpl in G, R;
        [unfold KeyIssuing.sync in R | unfold DeviceRoster.sync in R];
        rewrite G in R; simpl in R; now injection R as _ <-.
    + destruct (run_sync_accepted v cfg env _ _ _ st out st' G R)
        as (_ & Hs & [(_ & _ & it & Hi & _)|(_ & _ & Hd)]).
      * split; [exists [] | exists [it]].
        -- now rewrite app_nil_r, Hs.
        -- exact Hi.
      * rewrite Hd. now apply keeps_rows_same.
  - intros sid out st' R. rewrite run_latest in R. injection R as _ <-.
    now apply keeps_rows_same.
Qed.

Lemma only_end_session_removes_rows_witness :
  keeps_rows
    (db (Scenario.start Cases.two_sessions))
    (db (snd (run Scenario.strict (Scenario.calm "abcdef")
                  (join_session DeviceRosterVariant (VStr (js "AB12CD"))
                                (VStr (js "laptop")))
                  (Scenario.start Cases.two_sessions)))) /\
  keeps_rows
    (db (Scenario.start Cases.two_sessions))
    (db (snd (run Scenario.strict (Scenario.calm "zz99zz")
                  (create_session DeviceRosterVariant)
                  (Scenario.start Cases.two_sessions)))).
Proof.
  split.
  - destruct (only_end_session_removes_rows
                DeviceRosterVariant Scenario.strict (Scenario.calm "abcdef")
                (Scenario.start Cases.two_sessions)) as (_ & H & _).
    apply (H (VStr (js "AB12CD")) (VStr (js "laptop")) _ _ (surjective_pairing _)).
  - destruct (only_end_session_removes_rows
                DeviceRosterVariant Scenario.strict (Scenario.calm "zz99zz")
                (Scenario.start Cases.two_sessions)) as (H & _).
    apply (H _ _ (surjective_pairing _)).
Defined.
